(** * gitopper: control port (ssh.go) and supervisor start-up (main.go)

    A shallow embedding of the SSH control-plane router and its five
    handlers, of the supervisor entry point [run]/[main], and of the
    earlier HTTP-era [main] that still takes the [-d] tick period.

    Conventions.  Go strings are byte strings and are modelled by
    [string] (lists of 8-bit [ascii]).  [c.Services] is a slice of
    pointers; a handler that mutates a service through its pointer is
    modelled by returning the updated slice.  Calls that leave the
    process (git, mount, package manager, file system, sockets, clock,
    JSON encoder) are read from an environment record, one field per call
    site, so every theorem holds for all behaviours of the outside
    world. *)

From Stdlib Require Import ZArith List String Ascii Bool Lia Permutation SpecFloat.
Import ListNotations.
Open Scope string_scope.
Open Scope Z_scope.

Set Implicit Arguments.

(** ** Go standard library functions used by the sources *)

Module Go.

(** [strings.HasPrefix s prefix]. *)
Definition HasPrefix (s prefix : string) : bool := String.prefix prefix s.

(** [net/http] status codes and [http.StatusText]. *)
Definition StatusOK : Z := 200.
Definition StatusBadRequest : Z := 400.
Definition StatusNotFound : Z := 404.
Definition StatusNotAcceptable : Z := 406.
Definition StatusInternalServerError : Z := 500.

Definition StatusText (code : Z) : string :=
  if code =? StatusOK then "OK"
  else if code =? StatusBadRequest then "Bad Request"
  else if code =? StatusNotFound then "Not Found"
  else if code =? StatusNotAcceptable then "Not Acceptable"
  else if code =? StatusInternalServerError then "Internal Server Error"
  else "".

(** [encoding/hex]: [fromHexChar], [Decode] and [DecodeString]. *)
Inductive HexError : Type :=
| InvalidByteError (b : ascii)
| ErrLength.

Definition between (lo hi : ascii) (c : ascii) : bool :=
  (N.leb (N_of_ascii lo) (N_of_ascii c) && N.leb (N_of_ascii c) (N_of_ascii hi))%bool.

Definition fromHexChar (c : ascii) : option N :=
  if between "0" "9" c then Some (N_of_ascii c - N_of_ascii "0")%N
  else if between "a" "f" c then Some (N_of_ascii c - N_of_ascii "a" + 10)%N
  else if between "A" "F" c then Some (N_of_ascii c - N_of_ascii "A" + 10)%N
  else None.

(** The loop of [Decode] consumes two bytes per iteration; an odd
    trailing byte is first checked for validity and then reported as
    [ErrLength]. *)
Fixpoint Decode (src : string) : HexError + list N :=
  match src with
  | EmptyString => inr []
  | String p EmptyString =>
      match fromHexChar p with
      | None => inl (InvalidByteError p)
      | Some _ => inl ErrLength
      end
  | String p (String q rest) =>
      match fromHexChar p with
      | None => inl (InvalidByteError p)
      | Some a =>
          match fromHexChar q with
          | None => inl (InvalidByteError q)
          | Some b =>
              match Decode rest with
              | inl e => inl e
              | inr bs => inr ((a * 16 + b)%N :: bs)
              end
          end
      end
  end.

Definition DecodeString (s : string) : HexError + list N := Decode s.

(** [os/signal]: the three signals [run] subscribes to. *)
Inductive Signal : Type := SIGINT | SIGTERM | SIGHUP.

Definition Signal_eqb (a b : Signal) : bool :=
  match a, b with
  | SIGINT, SIGINT | SIGTERM, SIGTERM | SIGHUP, SIGHUP => true
  | _, _ => false
  end.

End Go.

(** ** Data model: State, Service, Config *)

Inductive State : Type := StateOK | StateFreeze | StateRollback | StateBroken.

(** Modelled from the spec: [State.String] is not among the given sources;
    the spec names the four states OK, FREEZE, ROLLBACK and BROKEN. *)
Definition State_String (s : State) : string :=
  match s with
  | StateOK => "OK"
  | StateFreeze => "FREEZE"
  | StateRollback => "ROLLBACK"
  | StateBroken => "BROKEN"
  end.

(** The transient status of a service: (state, info, change-time, hash). *)
Record ServiceState : Type := mkServiceState {
  state : State;
  info : string;
  change : Z;
  hash : string
}.

(** The fields of [Service] that ssh.go and main.go read.  The field the
    sources call [Service] is [Service_] here. *)
Record Service : Type := mkService {
  Upstream : string;
  Branch : string;
  Service_ : string;
  Machine : string;
  Package : string;
  Mount : string;
  status : ServiceState
}.

Record Keys : Type := mkKeys { Path : list string }.

Record Config : Type := mkConfig {
  Global : Service;
  Services : list Service;
  ConfigKeys : Keys
}.

(** Modelled from the spec: a fresh ServiceState is (OK, empty info, now,
    empty hash). *)
Definition initialState (now : Z) : ServiceState :=
  mkServiceState StateOK "" now "".

(** Modelled from the spec: [Service.SetState] is not among the given
    sources.  It stores the state and the info and stamps the change time;
    the hash is left alone. *)
Definition SetState (now : Z) (s : Service) (st : State) (i : string) : Service :=
  mkService (Upstream s) (Branch s) (Service_ s) (Machine s) (Package s) (Mount s)
    (mkServiceState st i now (hash (status s))).

(** Modelled from the spec: [Service.forMe] is not among the given
    sources.  A service is for this host when its machine is a member of
    the host-identity set. *)
Definition forMe (s : Service) (hosts : list string) : bool :=
  existsb (String.eqb (Machine s)) hosts.

(** Modelled from the spec: [Service.merge] is not among the given
    sources.  An explicit field of the service wins, an empty one is
    filled from the global template; identity and status stay with the
    service. *)
Definition orElse (a b : string) : string := if String.eqb a "" then b else a.

Definition merge (s : Service) (g : Service) : Service :=
  mkService (orElse (Upstream s) (Upstream g)) (orElse (Branch s) (Branch g))
    (Service_ s) (Machine s) (Package s) (orElse (Mount s) (Mount g)) (status s).

(** ** The control port (ssh.go) *)

Module Ssh.

(** The reply records of package [proto], with the fields ssh.go fills. *)
Record ListMachine : Type := mkListMachine {
  lmMachine : string;
  lmActual : string
}.

Record ListService : Type := mkListService {
  lsService : string;
  lsHash : string;
  lsState : string;
  lsStateInfo : string;
  lsStateChange : string
}.

Inductive Payload : Type :=
| ListMachinesPayload (l : list ListMachine)
| ListServicesPayload (l : list ListService).

(** What the handlers read from outside: the OS host name, the clock
    used by [SetState], [json.Marshal] (data and optional error) and
    [time.Format] with the RFC1123 layout. *)
Record Env : Type := mkEnv {
  Hostname : string;
  Now : Z;
  Marshal : Payload -> string * option string;
  FormatRFC1123 : Z -> string
}.

(** What a handler did to its [ssh.Session]: the bytes written and the
    argument of [s.Exit], [None] when the handler returned without
    calling it. *)
Record Reply : Type := mkReply {
  written : string;
  exited : option Z
}.

Definition Handler : Type := Config -> list string -> list string -> Config * Reply.

Section Handlers.

Variable env : Env.

Definition withServices (c : Config) (l : list Service) : Config :=
  mkConfig (Global c) l (ConfigKeys c).

Definition writeAndExit (data : string) (err : option string) : Reply :=
  match err with
  | Some _ => mkReply (Go.StatusText Go.StatusInternalServerError)
                (Some Go.StatusInternalServerError)
  | None => mkReply data (Some 0)
  end.

Definition ListMachines : Handler := fun c _ _ =>
  let lm := map (fun service => mkListMachine (Machine service) (Hostname env))
              (Services c) in
  let '(data, err) := Marshal env (ListMachinesPayload lm) in
  (c, writeAndExit data err).

Definition listEntry (service : Service) : ListService :=
  mkListService (Service_ service) (hash (status service))
    (State_String (state (status service))) (info (status service))
    (FormatRFC1123 env (change (status service))).

(** The range loop of [ListService].  The [break] of the source sits in
    a [switch] and leaves only the switch, so the loop goes on after a
    name match. *)
Fixpoint listLoop (target : string) (hosts : list string) (l : list Service)
  : list ListService :=
  match l with
  | [] => []
  | service :: rest =>
      if negb (forMe service hosts) then listLoop target hosts rest
      else if String.eqb target "" then listEntry service :: listLoop target hosts rest
      else if String.eqb (Service_ service) target
           then listEntry service :: listLoop target hosts rest
           else listLoop target hosts rest
  end.

Definition ListService_ : Handler := fun c cmd hosts =>
  let target := match cmd with _ :: t :: _ => t | _ => "" end in
  let ls := listLoop target hosts (Services c) in
  match ls with
  | [] => (c, mkReply (Go.StatusText Go.StatusNotFound) (Some Go.StatusNotFound))
  | _ :: _ =>
      let '(data, err) := Marshal env (ListServicesPayload ls) in
      (c, writeAndExit data err)
  end.

(** The range loop shared in shape by [freezeStateService] and
    [RollbackService]: the first service that is for this host and
    carries the target name gets [SetState st i]; [None] when the loop
    falls through. *)
Fixpoint setStateLoop (target : string) (st : State) (i : string)
  (hosts : list string) (l : list Service) : option (list Service) :=
  match l with
  | [] => None
  | service :: rest =>
      if negb (forMe service hosts) then
        option_map (cons service) (setStateLoop target st i hosts rest)
      else if String.eqb (Service_ service) target then
        Some (SetState (Now env) service st i :: rest)
      else option_map (cons service) (setStateLoop target st i hosts rest)
  end.

Definition freezeStateService (st : State) : Handler := fun c cmd hosts =>
  match cmd with
  | _ :: target :: _ =>
      match setStateLoop target st "" hosts (Services c) with
      | Some l => (withServices c l, mkReply (Go.StatusText Go.StatusOK) (Some 0))
      | None => (c, mkReply (Go.StatusText Go.StatusNotFound) (Some Go.StatusNotFound))
      end
  | _ => (c, mkReply "" (Some Go.StatusNotAcceptable))
  end.

Definition FreezeService : Handler := freezeStateService StateFreeze.
Definition UnfreezeService : Handler := freezeStateService StateOK.

Definition RollbackService : Handler := fun c cmd hosts =>
  match cmd with
  | _ :: target :: hash :: _ =>
      match Go.DecodeString hash with
      | inl _ =>
          (c, mkReply (Go.StatusText Go.StatusNotAcceptable
                       ++ ", not a valid git hash: " ++ hash)
                (Some Go.StatusNotAcceptable))
      | inr _ =>
          match setStateLoop target StateRollback hash hosts (Services c) with
          | Some l => (withServices c l, mkReply (Go.StatusText Go.StatusOK) (Some 0))
          | None => (c, mkReply (Go.StatusText Go.StatusNotFound)
                          (Some Go.StatusNotFound))
          end
      end
  | _ => (c, mkReply "" None)
  end.

(** The route table.  The source ranges over a Go map, whose order is
    unspecified; [newRouterWith] takes the order as an argument and
    [newRouter] uses the order of the source text. *)
Definition routes : list (string * Handler) :=
  [ ("/list/machine", ListMachines);
    ("/list/service", ListService_);
    ("/state/freeze", FreezeService);
    ("/state/unfreeze", UnfreezeService);
    ("/state/rollback", RollbackService) ].

Fixpoint route (rs : list (string * Handler)) (tok : string) : option Handler :=
  match rs with
  | [] => None
  | (prefix, f) :: rest => if Go.HasPrefix tok prefix then Some f else route rest tok
  end.

Definition newRouterWith (rs : list (string * Handler)) (c : Config)
  (hosts : list string) (cmd : list string) : Config * Reply :=
  match cmd with
  | [] => (c, mkReply (Go.StatusText Go.StatusBadRequest) (Some Go.StatusBadRequest))
  | tok :: _ =>
      match route rs tok with
      | Some f => f c cmd hosts
      | None => (c, mkReply (Go.StatusText Go.StatusNotFound) (Some Go.StatusNotFound))
      end
  end.

Definition newRouter : Config -> list string -> list string -> Config * Reply :=
  newRouterWith routes.

End Handlers.

End Ssh.


(** ** The supervisor (main.go, the version with [run] and [ExecContext]) *)

Module Main.

Record ExecContext : Type := mkExec {
  Hosts : list string;
  ConfigSource : string;
  SAddr : string;
  MAddr : string;
  Debug : bool;
  Restart : bool;
  ExecUpstream : string;
  Dir : string;
  ExecBranch : string;
  ExecMount : string;
  Pull : bool
}.

(** Error values.  [ErrNotRoot], [ErrNoConfig] and [ErrHUP] are the three
    sentinels of main.go; [Errorf] is [fmt.Errorf] with the verb [%v],
    which keeps the text and wraps nothing; [External] is an error value
    handed back unchanged from another package.  The underlying error of a
    [RepoPullError] comes from the git driver, a package that cannot name
    the sentinels of package main, so it is kept as its text. *)
Inductive error : Type :=
| ErrNotRoot
| ErrNoConfig
| ErrHUP
| RepoPullError (machine upstream underlying : string)
| Errorf (msg : string)
| External (msg : string).

Definition Unwrap (e : error) : option error :=
  match e with
  | RepoPullError _ _ u => Some (External u)
  | _ => None
  end.

Definition isErrHUP (e : error) : bool :=
  match e with ErrHUP => true | _ => false end.

(** [errors.Is err ErrHUP]: compare, unwrap, compare again.  The chain has
    at most two links here. *)
Definition errors_Is_ErrHUP (e : error) : bool :=
  (isErrHUP e || match Unwrap e with Some u => isErrHUP u | None => false end)%bool.

(** Everything [run] asks of the outside world.  Calls made once per
    iteration of the service loop take the index of the iteration, so that
    two services may see different outcomes.  [parseConfig] and [Valid]
    are functions of this repository that are not among the given sources
    and are taken as parameters. *)
Record World : Type := mkWorld {
  Geteuid : Z;
  OSHostname : string;
  SelfName : string;
  Join : string -> string -> string;
  IsAbs : string -> bool;
  Quote : string -> string;
  BootCheckout : Service -> option string;
  BootPull : Service -> option string;
  ReadFile : string -> string + string;
  parseConfig : string -> string + Config;
  Valid : Config -> option string;
  ParseAuthorizedKey : string -> string + string;
  Listen : string -> option string;
  Install : nat -> string -> option string;
  Checkout : nat -> Service -> option string;
  bindmount : nat -> Service -> string + Z;
  systemctl : nat -> Service -> option string;
  Clock : nat -> Z;
  StartTime : Z;
  FirstSignal : option Go.Signal
}.

(** Log lines and calls, in program order. *)
Inductive Event : Type :=
| DebugSet
| InfoBootstrapping (upstream service machine : string)
| CallCheckout (s : Service)
| CallPull (s : Service)
| InfoSettingConfig (path : string)
| CallReadFile (path : string)
| CallParseConfig (doc : string)
| CallValid
| InfoReadingKey (path : string)
| CallParseAuthorizedKey (data : string)
| CallListen (addr : string)
| InfoLaunched (saddr maddr : string) (hosts : list string) (keys : nat)
| InfoMachine (machine upstream : string)
| CallInstall (pkg : string)
| WarnInstall (machine pkg err : string)
| WarnPull (machine upstream err : string)
| InfoRepository (machine : string)
| CallBindmount (s : Service)
| WarnBindmount (machine upstream err : string)
| CallSystemctl (s : Service)
| WarnSystemctl (machine err : string)
| GoTrackUpstream (i : nat) (s : Service)
| GoTrackConfig (path : string)
| WarnNoServices (hosts : list string).

(** A computation that logs, calls out and may return an error early. *)
Definition M (A : Type) : Type := (list Event * (error + A))%type.

Definition ret {A : Type} (a : A) : M A := ([], inr a).

Definition fail {A : Type} (e : error) : M A := ([], inl e).

Definition emit (ev : Event) : M unit := ([ev], inr tt).

Definition bind {A B : Type} (m : M A) (f : A -> M B) : M B :=
  match m with
  | (t, inl e) => (t, inl e)
  | (t, inr a) => let '(t', r) := f a in ((t ++ t')%list, r)
  end.

Notation "x <- m ;; k" := (bind m (fun x => k))
  (at level 61, m at next level, right associativity).
Notation "m ;;; k" := (bind m (fun _ => k))
  (at level 61, right associativity).

(** Lines 237-239: [log.D.Set()] under -d, which switches debug logging
    on. *)
Definition debugLog (exec : ExecContext) : list Event :=
  if Debug exec then [DebugSet] else [].

Definition setDebug (exec : ExecContext) : M unit := (debugLog exec, inr tt).

Section Run.

Variable w : World.

(** Modelled from the spec: [selfService] is not among the given sources.
    When a bootstrap upstream is supplied it synthesizes a service for this
    host from the bootstrap flags; without one it returns nil. *)
Definition selfService (upstream branch mount dir : string) : option Service :=
  if String.eqb upstream "" then None
  else Some (mkService upstream branch (SelfName w) (OSHostname w) "" mount
               (initialState (StartTime w))).

Definition inTree (self : Service) (dir p : string) : string :=
  Join w (Join w (Join w (Mount self) (Service_ self)) dir) p.

(** Lines 245-261: bootstrapping.  Returns the config path to read. *)
Definition bootstrap (exec : ExecContext) (self : option Service) : M string :=
  match self with
  | None => ret (ConfigSource exec)
  | Some self =>
      emit (InfoBootstrapping (ExecUpstream exec) (Service_ self) (Machine self)) ;;;
      emit (CallCheckout self) ;;;
      match BootCheckout w self with
      | Some err => fail (RepoPullError (Machine self) (Upstream self) err)
      | None =>
          (if Pull exec then
             emit (CallPull self) ;;;
             match BootPull w self with
             | Some err => fail (RepoPullError (Machine self) (Upstream self) err)
             | None => ret tt
             end
           else ret tt) ;;;
          let source := inTree self (Dir exec) (ConfigSource exec) in
          emit (InfoSettingConfig source) ;;;
          ret source
      end
  end.

(** Lines 263-278: read, parse and validate the config, then append the
    bootstrap service. *)
Definition loadConfig (source : string) (self : option Service) : M Config :=
  emit (CallReadFile source) ;;;
  match ReadFile w source with
  | inl err => fail (Errorf ("reading config: " ++ err))
  | inr doc =>
      emit (CallParseConfig doc) ;;;
      match parseConfig w doc with
      | inl err => fail (Errorf ("parsing config: " ++ err))
      | inr c =>
          emit CallValid ;;;
          match Valid w c with
          | Some err => fail (Errorf ("validating config: " ++ err))
          | None =>
              match self with
              | Some self => ret (mkConfig (Global c) (Services c ++ [self])%list (ConfigKeys c))
              | None => ret c
              end
          end
      end
  end.

(** Lines 280-297: load the authorized keys. *)
Fixpoint loadKeys (exec : ExecContext) (self : option Service) (paths : list string)
  : M (list string) :=
  match paths with
  | [] => ret []
  | p :: rest =>
      let p := match self with
               | Some self => if negb (IsAbs w p) then inTree self (Dir exec) p else p
               | None => p
               end in
      emit (InfoReadingKey p) ;;;
      emit (CallReadFile p) ;;;
      match ReadFile w p with
      | inl err => fail (External err)
      | inr data =>
          emit (CallParseAuthorizedKey data) ;;;
          match ParseAuthorizedKey w data with
          | inl err => fail (External err)
          | inr a => allowed <- loadKeys exec self rest ;; ret (a :: allowed)
          end
      end
  end.

(** [serveSSH] and [serveMonitoring] as far as [run] sees them: the
    listener is bound or the error is returned. *)
Definition serve (addr : string) : M unit :=
  emit (CallListen addr) ;;;
  match Listen w addr with
  | Some err => fail (External err)
  | None => ret tt
  end.

(** What [run] holds when it reaches the service loop. *)
Record Ready : Type := mkReady {
  cfg : Config;
  source : string;
  self : option Service;
  allowed : list string
}.

(** Lines 233-311. *)
Definition startup (exec : ExecContext) : M Ready :=
  if negb (Geteuid w =? 0) then fail ErrNotRoot
  else
    setDebug exec ;;;
    if String.eqb (ConfigSource exec) "" then fail ErrNoConfig
    else
      let self := selfService (ExecUpstream exec) (ExecBranch exec) (ExecMount exec)
                    (Dir exec) in
      source <- bootstrap exec self ;;
      c <- loadConfig source self ;;
      allowed <- loadKeys exec self (Path (ConfigKeys c)) ;;
      serve (SAddr exec) ;;;
      serve (MAddr exec) ;;;
      emit (InfoLaunched (SAddr exec) (MAddr exec) (Hosts exec)
              (List.length (Path (ConfigKeys c)))) ;;;
      ret (mkReady c source self allowed).

(** One iteration of the service loop, lines 314-364: whether the service
    was counted in [servCnt], the service as the iteration leaves it
    (merged when it is for this host, with the state it ends in), whether
    its [trackUpstream] goroutine was started, and what was logged and
    called. *)
Record Iteration : Type := mkIteration {
  counted : bool;
  after : Service;
  spawned : bool;
  events : list Event
}.

Definition startService (hosts : list string) (global : Service) (i : nat)
  (serv : Service) : Iteration :=
  if negb (forMe serv hosts) then mkIteration false serv false []
  else
    let s := merge serv global in
    let t0 := [InfoMachine (Machine s) (Upstream s)] in
    let installed :=
      if String.eqb (Package s) "" then ([], None)
      else ([CallInstall (Package s)], Install w i (Package s)) in
    match snd installed with
    | Some err =>
        mkIteration true s false
          (t0 ++ fst installed ++ [WarnInstall (Machine s) (Package s) err])
    | None =>
        let t1 := (t0 ++ fst installed ++ [CallCheckout s])%list in
        match Checkout w i s with
        | Some err =>
            mkIteration true
              (SetState (Clock w i) s StateBroken
                 ("error pulling " ++ Quote w (Upstream s) ++ ": " ++ err)%string)
              false
              (t1 ++ [WarnPull (Machine s) (Upstream s) err])
        | None =>
            let t2 := (t1 ++ [InfoRepository (Machine s); CallBindmount s])%list in
            match bindmount w i s with
            | inl err =>
                mkIteration true
                  (SetState (Clock w i) s StateBroken
                     ("error setting up bind mounts repo " ++ Quote w (Upstream s)
                      ++ ": " ++ err)%string)
                  false
                  (t2 ++ [WarnBindmount (Machine s) (Upstream s) err])
            | inr mounts =>
                if mounts >? 0 then
                  match systemctl w i s with
                  | Some err =>
                      let s' := SetState (Clock w i) s StateBroken
                                  ("error running systemctl " ++ Quote w (Upstream s)
                                   ++ ": " ++ err)%string in
                      mkIteration true s' true
                        (t2 ++ [CallSystemctl s; WarnSystemctl (Machine s) err;
                                GoTrackUpstream i s'])
                  | None =>
                      mkIteration true s true
                        (t2 ++ [CallSystemctl s; GoTrackUpstream i s])
                  end
                else mkIteration true s true (t2 ++ [GoTrackUpstream i s])
            end
        end
    end%list.

(** The loop itself: every element of [c.Services] gets its iteration,
    whatever the earlier ones did. *)
Record Started : Type := mkStarted {
  servCnt : nat;
  services : list Service;
  workers : list (nat * Service);
  trace : list Event
}.

Fixpoint startServices (hosts : list string) (global : Service) (i : nat)
  (l : list Service) : Started :=
  match l with
  | [] => mkStarted 0 [] [] []
  | serv :: rest =>
      let it := startService hosts global i serv in
      let r := startServices hosts global (S i) rest in
      mkStarted ((if counted it then 1 else 0) + servCnt r)%nat
        (after it :: services r)
        ((if spawned it then [(i, after it)] else []) ++ workers r)%list
        (events it ++ trace r)%list
  end.

(** How [run] ends: it returns (nil or an error), or it stays blocked in
    [workerWG.Wait] because no signal arrives.  [started] lists the
    [trackUpstream] goroutines that were launched, [final] the services as
    the loop left them. *)
Inductive Outcome : Type :=
| Returned (err : option error)
| Waiting.

Record Result : Type := mkResult {
  outcome : Outcome;
  final : list Service;
  started : list (nat * Service);
  configTracker : bool;
  log : list Event
}.

(** Lines 371-399.  The signal goroutine reads one value from [done]:
    [cancel] is called for any signal, [hup] is closed for SIGHUP only;
    the workers return on cancellation and [run] returns [ErrHUP] exactly
    when [hup] is closed. *)
Definition await (exec : ExecContext) : Outcome :=
  match FirstSignal w with
  | None => Waiting
  | Some s => if Go.Signal_eqb s Go.SIGHUP then Returned (Some ErrHUP) else Returned None
  end.

Definition run (exec : ExecContext) : Result :=
  match startup exec with
  | (t, inl err) => mkResult (Returned (Some err)) [] [] false t
  | (t, inr rdy) =>
      let st := startServices (Hosts exec) (Global (cfg rdy)) 0 (Services (cfg rdy)) in
      if Nat.eqb (servCnt st) 0 then
        mkResult (Returned None) (services st) (workers st) false
          (t ++ trace st ++ [WarnNoServices (Hosts exec)])%list
      else
        mkResult (await exec) (services st) (workers st) (Restart exec)
          (t ++ trace st
             ++ (if Restart exec then [GoTrackConfig (source rdy)] else []))%list
  end.

End Run.

(** The flags of [RegisterFlags]; [flagH] holds the hosts given with
    [-h], which are added to the local host name. *)
Record Flags : Type := mkFlags {
  flagH : list string;
  flagC : string;
  flagS : string;
  flagM : string;
  flagD : bool;
  flagR : bool;
  flagU : string;
  flagDir : string;
  flagB : string;
  flagMount : string;
  flagP : bool
}.

Definition defaultFlags : Flags :=
  mkFlags [] "" ":2222" ":9222" false false "" "gitopper" "main" "" false.

Definition parseFlags (w : World) (f : Flags) : ExecContext :=
  mkExec (OSHostname w :: flagH f) (flagC f) (flagS f) (flagM f) (flagD f) (flagR f)
    (flagU f) (flagDir f) (flagB f) (flagMount f) (flagP f).

(** Lines 402-419.  The exit status of the process, [None] while [run]
    has not returned.  [log.Fatal] exits with status 1. *)
Definition exitStatus (o : Outcome) : option Z :=
  match o with
  | Waiting => None
  | Returned None => Some 0
  | Returned (Some err) => if errors_Is_ErrHUP err then Some 2 else Some 1
  end.

Definition main (w : World) (f : Flags) : option Z :=
  exitStatus (outcome (run w (parseFlags w f))).

End Main.


(** ** [time.ParseDuration] *)

Module Time.

Definition Nanosecond : Z := 1.
Definition Microsecond : Z := 1000 * Nanosecond.
Definition Millisecond : Z := 1000 * Microsecond.
Definition Second : Z := 1000 * Millisecond.
Definition Minute : Z := 60 * Second.
Definition Hour : Z := 60 * Minute.

Definition isDigit (c : ascii) : bool := Go.between "0" "9" c.

Definition digit (c : ascii) : Z := Z.of_N (N_of_ascii c) - 48.

(** [leadingInt]: the digits at the front of [s] as a uint64, [None] on
    overflow. *)
Fixpoint leadingInt (x : Z) (s : string) : option (Z * string) :=
  match s with
  | String c rest =>
      if isDigit c then
        if x >? 2 ^ 63 / 10 then None
        else let x' := x * 10 + digit c in
             if x' >? 2 ^ 63 then None else leadingInt x' rest
      else Some (x, s)
  | EmptyString => Some (x, s)
  end.

(** Go's [float64] is IEEE 754 binary64 with rounding to nearest even;
    [SpecFloat] gives its arithmetic on [spec_float] with precision 53 and
    maximal exponent 1024.  [float64 n] is the conversion of an unsigned
    integer, [uint64_of_float] the conversion back, which truncates; it is
    applied to finite non-negative values only. *)
Definition float64 (n : Z) : spec_float := binary_normalize 53 1024 n 0 false.

Definition float64_mul (x y : spec_float) : spec_float := SFmul 53 1024 x y.

Definition float64_div (x y : spec_float) : spec_float := SFdiv 53 1024 x y.

Definition uint64_of_float (x : spec_float) : Z :=
  match x with
  | S754_finite false m e =>
      if 0 <=? e then Zpos m * 2 ^ e else Zpos m / 2 ^ (- e)
  | _ => 0
  end.

(** [leadingFraction]: digits after the point as a numerator [x] and a
    power of ten [scale], which the source keeps as a float64 and
    multiplies by 10 for every digit taken; digits beyond the capacity of
    a uint64 are consumed and dropped. *)
Fixpoint leadingFraction (x : Z) (scale : spec_float) (overflow : bool) (s : string)
  : Z * spec_float * string :=
  match s with
  | String c rest =>
      if isDigit c then
        if overflow then leadingFraction x scale true rest
        else if x >? (2 ^ 63 - 1) / 10 then leadingFraction x scale true rest
        else let y := x * 10 + digit c in
             if y >? 2 ^ 63 then leadingFraction x scale true rest
             else leadingFraction y (float64_mul scale (float64 10)) false rest
      else (x, scale, s)
  | EmptyString => (x, scale, s)
  end.

(** The unit is the run of bytes up to the next digit or point. *)
Fixpoint takeUnit (s : string) : string * string :=
  match s with
  | String c rest =>
      if (Ascii.eqb c "." || isDigit c)%bool then (EmptyString, s)
      else let '(u, r) := takeUnit rest in (String c u, r)
  | EmptyString => (EmptyString, EmptyString)
  end.

Definition micro : string := String (ascii_of_nat 194) (String (ascii_of_nat 181) "s").
Definition mu : string := String (ascii_of_nat 206) (String (ascii_of_nat 188) "s").

Definition unitMap (u : string) : option Z :=
  if String.eqb u "ns" then Some Nanosecond
  else if String.eqb u "us" then Some Microsecond
  else if String.eqb u micro then Some Microsecond
  else if String.eqb u mu then Some Microsecond
  else if String.eqb u "ms" then Some Millisecond
  else if String.eqb u "s" then Some Second
  else if String.eqb u "m" then Some Minute
  else if String.eqb u "h" then Some Hour
  else None.

(** The loop of [ParseDuration] over the groups number-unit.  Each turn
    consumes at least the unit, so the length of the input bounds the
    number of turns.  The fractional part is added as
    [uint64(float64(f) * (float64(unit) / scale))]. *)
Fixpoint groups (fuel : nat) (s : string) (d : Z) : option Z :=
  match s with
  | EmptyString => Some d
  | String c0 _ =>
      match fuel with
      | O => None
      | S fuel' =>
          if negb (Ascii.eqb c0 "." || isDigit c0)%bool then None
          else
            match leadingInt 0 s with
            | None => None
            | Some (v, s1) =>
                let pre := negb (Nat.eqb (String.length s) (String.length s1)) in
                let '(f, scale, s2, post) :=
                  match s1 with
                  | String "." s1' =>
                      let '(f, scale, s2) := leadingFraction 0 (float64 1) false s1' in
                      (f, scale, s2, negb (Nat.eqb (String.length s1') (String.length s2)))
                  | _ => (0, float64 1, s1, false)
                  end in
                if (negb pre && negb post)%bool then None
                else
                  let '(u, s3) := takeUnit s2 in
                  if String.eqb u "" then None
                  else
                    match unitMap u with
                    | None => None
                    | Some unit =>
                        if v >? 2 ^ 63 / unit then None
                        else
                          let v1 := v * unit in
                          let v2 :=
                            if f >? 0 then
                              v1 + uint64_of_float
                                     (float64_mul (float64 f)
                                        (float64_div (float64 unit) scale))
                            else v1 in
                          if ((f >? 0) && (v2 >? 2 ^ 63))%bool then None
                          else
                            let d' := (d + v2) mod 2 ^ 64 in
                            if d' >? 2 ^ 63 then None else groups fuel' s3 d'
                    end
            end
      end
  end.

(** [ParseDuration]: nanoseconds, or [None] for the error result. *)
Definition ParseDuration (orig : string) : option Z :=
  let '(neg, s) :=
    match orig with
    | String c rest =>
        if (Ascii.eqb c "-" || Ascii.eqb c "+")%bool then (Ascii.eqb c "-", rest)
        else (false, orig)
    | EmptyString => (false, orig)
    end in
  if String.eqb s "0" then Some 0
  else if String.eqb s "" then None
  else
    match groups (String.length s) s 0 with
    | None => None
    | Some d =>
        if neg then Some (- d)
        else if d >? 2 ^ 63 - 1 then None else Some d
    end.

End Time.

(** ** The earlier [main] (main.go, the version with the [-d] flag) *)

Module Legacy.

Record Flags : Type := mkFlags {
  flagConfig : string;
  flagDuration : string;
  flagAddr : string
}.

Definition defaultFlags : Flags := mkFlags "" "30s" ":8000".

(** The outside world of the earlier [main].  [ParseDuration] is
    [time.ParseDuration] (nanoseconds or an error text); [Unmarshal] and
    [Valid] stand for the TOML decoder and [Config.Valid]. *)
Record World : Type := mkWorld {
  ParseDuration : string -> string + Z;
  ReadFile : string -> string + string;
  Unmarshal : string -> string + Config;
  Valid : Config -> option string;
  Checkout : nat -> Service -> option string;
  bindmount : nat -> Service -> option string
}.

(** A started [trackUpstream] goroutine: the merged service, the
    duration that [merge] was given, and whether the initial checkout had
    failed (which is only logged). *)
Record Worker : Type := mkWorker {
  tracked : Service;
  period : Z;
  checkoutFailed : bool
}.

(** [Fatal] is [log.Fatal]/[log.Fatalf], which ends the process; the
    workers started before it are listed.  [Serving] is the state in
    which [main] waits for SIGINT or SIGTERM. *)
Inductive Outcome : Type :=
| Fatal (msg : string) (workers : list Worker)
| Serving (workers : list Worker).

Section LegacyMain.

Variable w : World.

(** Lines 49-70.  A failed checkout is logged and the iteration goes on;
    a failed bind mount is fatal. *)
Fixpoint startAll (global : Service) (duration : Z) (i : nat) (l : list Service)
  (acc : list Worker) : Outcome :=
  match l with
  | [] => Serving acc
  | s :: rest =>
      let s1 := merge s global in
      let warned := match Checkout w i s1 with Some _ => true | None => false end in
      match bindmount w i s1 with
      | Some err => Fatal ("Can not setup bind mounts: " ++ err) acc
      | None => startAll global duration (S i) rest (acc ++ [mkWorker s1 duration warned])
      end
  end.

(** Lines 21-84. *)
Definition main (f : Flags) : Outcome :=
  if String.eqb (flagConfig f) "" then Fatal "-c flag is mandatory" []
  else
    match ParseDuration w (flagDuration f) with
    | inl err => Fatal ("invalid -d value: " ++ err) []
    | inr duration =>
        if duration <? 5 * Time.Second then Fatal "invalid -d value (<5s)" []
        else
          match ReadFile w (flagConfig f) with
          | inl err => Fatal err []
          | inr doc =>
              match Unmarshal w doc with
              | inl err => Fatal err []
              | inr c =>
                  match Valid w c with
                  | Some err => Fatal ("The configuration is not valid: " ++ err) []
                  | None => startAll (Global c) duration 0 (Services c) []
                  end
              end
          end
    end.

End LegacyMain.

End Legacy.

(** ** Predicates of the specification and concrete configurations *)

Definition isHexDigit (c : ascii) : bool :=
  (Go.between "0" "9" c || Go.between "a" "f" c || Go.between "A" "F" c)%bool.

Fixpoint allHex (s : string) : bool :=
  match s with
  | EmptyString => true
  | String c rest => (isHexDigit c && allHex rest)%bool
  end.

(** The words of the specification: a 40-character hexadecimal string. *)
Definition isHash40 (s : string) : bool :=
  (Nat.eqb (String.length s) 40 && allHex s)%bool.

(** What [hex.DecodeString] accepts: hexadecimal digits, an even number
    of them. *)
Definition evenHex (s : string) : bool :=
  (Nat.even (String.length s) && allHex s)%bool.

(** A service is addressed by a control command when it is for this host
    and carries the name. *)
Definition addressed (hosts : list string) (name : string) (s : Service) : bool :=
  (forMe s hosts && String.eqb (Service_ s) name)%bool.

(** A computation whose error, if any, is not the hangup sentinel. *)
Definition plain {A : Type} (m : Main.M A) : Prop :=
  match snd m with
  | inl e => Main.errors_Is_ErrHUP e = false
  | inr _ => True
  end.

(** Lines 204-211 of main.go: the callback that [serveSSH] hands to
    [ssh.PublicKeyAuth]; [KeysEqual] is [ssh.KeysEqual]. *)
Fixpoint PublicKeyAuth (KeysEqual : string -> string -> bool) (allowed : list string)
  (key : string) : bool :=
  match allowed with
  | [] => false
  | a :: rest => if KeysEqual a key then true else PublicKeyAuth KeysEqual rest key
  end.

(** The path a key file is read from (lines 282-285 of main.go): relative
    paths are taken inside the bootstrap tree when there is one. *)
Definition keyPath (w : Main.World) (exec : Main.ExecContext) (self : option Service)
  (p : string) : string :=
  match self with
  | Some self => if negb (Main.IsAbs w p) then Main.inTree w self (Main.Dir exec) p else p
  | None => p
  end.

(** The services a [/list/service] command reports: those for this host,
    all of them without a target, those carrying the name with one. *)
Definition listed (hosts : list string) (target : string) (s : Service) : bool :=
  (forMe s hosts && (String.eqb target "" || String.eqb (Service_ s) target))%bool.

(** The two commands handled by [freezeStateService]. *)
Definition freezeCommand (tok : string) (st : State) : Prop :=
  (tok = "/state/freeze" /\ st = StateFreeze) \/ (tok = "/state/unfreeze" /\ st = StateOK).

Module Samples.

Definition env0 : Ssh.Env :=
  Ssh.mkEnv "alpha" 1000 (fun _ => ("{}", None)) (fun _ => "Thu, 01 Jan 1970 00:00:00 UTC").

Definition global0 : Service :=
  mkService "https://git.example.org/ops.git" "main" "" "" "" "/srv" (initialState 0).

Definition web : Service :=
  mkService "" "" "web" "alpha" "" "/srv/web" (initialState 0).

Definition db : Service :=
  mkService "" "" "db" "beta" "" "/srv/db" (initialState 0).

Definition proxy : Service :=
  mkService "" "" "proxy" "alpha" "haproxy" "/srv/proxy" (initialState 0).

Definition conf0 : Config := mkConfig global0 [web; db] (mkKeys []).

Definition hosts0 : list string := ["alpha"].

(** A configuration with three services, two of them for host alpha; the
    service proxy needs the package haproxy. *)
Definition conf1 : Config := mkConfig global0 [web; db; proxy] (mkKeys ["/etc/gitopper/ops.pub"]).

Definition join (a b : string) : string := a ++ "/" ++ b.

(** A host on which everything succeeds unless the arguments say
    otherwise: the effective uid, the outcomes of package installs,
    checkouts and bind mounts, and the signal that ends the run. *)
Definition world (euid : Z) (install : nat -> string -> option string)
  (checkout : nat -> Service -> option string)
  (mount : nat -> Service -> string + Z) (sig : option Go.Signal) : Main.World :=
  Main.mkWorld euid "alpha" "gitopper" join (String.prefix "/") (fun s => s)
    (fun _ => None) (fun _ => None)
    (fun path => inr path) (fun _ => inr conf1) (fun _ => None)
    (fun data => inr data) (fun _ => None)
    install checkout mount (fun _ _ => None)
    (fun i => 100 + Z.of_nat i) 0 sig.

Definition allInstall : nat -> string -> option string := fun _ _ => None.
Definition allCheckout : nat -> Service -> option string := fun _ _ => None.
Definition allMount : nat -> Service -> string + Z := fun _ _ => inr 1.

Definition world0 : Main.World := world 0 allInstall allCheckout allMount (Some Go.SIGTERM).

Definition worldHUP : Main.World := world 0 allInstall allCheckout allMount (Some Go.SIGHUP).

Definition worldUser : Main.World := world 1000 allInstall allCheckout allMount (Some Go.SIGTERM).

(** The package manager fails on haproxy. *)
Definition worldNoPackage : Main.World :=
  world 0 (fun _ pkg => if String.eqb pkg "haproxy" then Some "exit status 100" else None)
    allCheckout allMount (Some Go.SIGTERM).

(** The first checkout (service web) fails. *)
Definition worldNoGit : Main.World :=
  world 0 allInstall (fun i _ => if Nat.eqb i 0 then Some "exit status 128" else None)
    allMount (Some Go.SIGTERM).

Definition flags0 : Main.Flags :=
  Main.mkFlags [] "/etc/gitopper.toml" ":2222" ":9222" false false "" "gitopper" "main" ""
    false.

(** Bootstrapping from a repository, with a config path relative to it. *)
Definition flagsBoot : Main.Flags :=
  Main.mkFlags [] "config.toml" ":2222" ":9222" false false
    "https://git.example.org/ops.git" "gitopper" "main" "/boot" false.

(** A host that no service names. *)
Definition worldElsewhere : Main.World :=
  Main.mkWorld 0 "gamma" "gitopper" join (String.prefix "/") (fun s => s)
    (fun _ => None) (fun _ => None)
    (fun path => inr path) (fun _ => inr conf1) (fun _ => None)
    (fun data => inr data) (fun _ => None)
    allInstall allCheckout allMount (fun _ _ => None)
    (fun i => 100 + Z.of_nat i) 0 (Some Go.SIGHUP).

(** The earlier main: a world built on the model of time.ParseDuration. *)
Definition legacyWorld (mount : nat -> Service -> option string) : Legacy.World :=
  Legacy.mkWorld
    (fun s => match Time.ParseDuration s with
              | Some d => inr d
              | None => inl ("time: invalid duration " ++ s)
              end)
    (fun path => inr path) (fun _ => inr conf0) (fun _ => None)
    (fun _ _ => None) mount.

Definition legacyFlags (d : string) : Legacy.Flags :=
  Legacy.mkFlags "/etc/gitopper.toml" d ":8000".

(** A world given field by field where the start-up phase can fail. *)
Definition startupWorld (bootCheckout : Service -> option string)
  (readFile : string -> string + string) (parse : string -> string + Config)
  (valid : Config -> option string) (listen : string -> option string)
  (checkout : nat -> Service -> option string) (mount : nat -> Service -> string + Z)
  (ctl : nat -> Service -> option string) : Main.World :=
  Main.mkWorld 0 "alpha" "gitopper" join (String.prefix "/") (fun s => s)
    bootCheckout (fun _ => None) readFile parse valid (fun data => inr data) listen
    allInstall checkout mount ctl (fun i => 100 + Z.of_nat i) 0 (Some Go.SIGINT).

Definition readAll : string -> string + string := fun path => inr path.
Definition parseConf1 : string -> string + Config := fun _ => inr conf1.
Definition validAll : Config -> option string := fun _ => None.
Definition listenAll : string -> option string := fun _ => None.
Definition ctlAll : nat -> Service -> option string := fun _ _ => None.

(** The bootstrap repository cannot be cloned. *)
Definition worldNoBoot : Main.World :=
  startupWorld (fun _ => Some "exit status 128") readAll parseConf1 validAll listenAll
    allCheckout allMount ctlAll.

(** The config file is missing. *)
Definition worldNoConfig : Main.World :=
  startupWorld (fun _ => None) (fun _ => inl "no such file or directory") parseConf1 validAll
    listenAll allCheckout allMount ctlAll.

(** No checkout succeeds. *)
Definition worldAllBroken : Main.World :=
  startupWorld (fun _ => None) readAll parseConf1 validAll listenAll
    (fun _ _ => Some "exit status 128") allMount ctlAll.

(** The unit restart fails. *)
Definition worldNoRestart : Main.World :=
  startupWorld (fun _ => None) readAll parseConf1 validAll listenAll
    allCheckout allMount (fun _ _ => Some "exit status 1").

End Samples.

(** * Properties *)

Unset Implicit Arguments.
Open Scope list_scope.

(** ** Hexadecimal validation *)

Lemma fromHexChar_isHexDigit (c : ascii) :
  isHexDigit c = match Go.fromHexChar c with Some _ => true | None => false end.
Proof.
  unfold isHexDigit, Go.fromHexChar.
  destruct (Go.between "0" "9" c); [reflexivity|].
  destruct (Go.between "a" "f" c); [reflexivity|].
  destruct (Go.between "A" "F" c); reflexivity.
Qed.

(** Induction two characters at a time, the step of [Go.Decode]. *)
Lemma string_pair_ind (P : string -> Prop) :
  P EmptyString ->
  (forall c, P (String c EmptyString)) ->
  (forall c d s, P s -> P (String c (String d s))) ->
  forall s, P s.
Proof.
  intros H0 H1 H2.
  assert (H : forall s, P s /\ forall c, P (String c s)).
  { induction s as [|d s [IHs IHc]]; split; auto. }
  intro s; apply H.
Qed.

Lemma Decode_accepts_iff (s : string) :
  (exists bs, Go.DecodeString s = inr bs) <-> evenHex s = true.
Proof.
  unfold Go.DecodeString, evenHex.
  induction s as [|c|c d s IH] using string_pair_ind.
  - simpl; split; eauto.
  - cbn [Go.Decode String.length Nat.even allHex].
    split; [|discriminate].
    intros [bs H]; destruct (Go.fromHexChar c); discriminate.
  - cbn [Go.Decode String.length Nat.even allHex].
    rewrite !fromHexChar_isHexDigit.
    destruct (Go.fromHexChar c) as [a|]; cbn [andb].
    2:{ rewrite andb_false_r. split; [intros [bs H]|]; discriminate. }
    destruct (Go.fromHexChar d) as [b|]; cbn [andb].
    2:{ rewrite andb_false_r. split; [intros [bs H]|]; discriminate. }
    rewrite <- IH.
    destruct (Go.Decode s) as [e|bs]; split.
    + intros [bs' H]; discriminate.
    + intros [bs' H]; discriminate.
    + eauto.
    + eauto.
Qed.

Lemma Decode_rejects (s : string) :
  evenHex s = false -> exists e, Go.DecodeString s = inl e.
Proof.
  intro H. destruct (Go.DecodeString s) as [e|bs] eqn:E; [eauto|].
  assert (evenHex s = true) by (apply Decode_accepts_iff; eauto).
  congruence.
Qed.

(** ** The router *)

Lemma prefix_nil (s : string) : String.prefix EmptyString s = true.
Proof. destruct s; reflexivity. Qed.

(** Two prefixes of one string are comparable. *)
Lemma prefix_both (t : string) :
  forall p q, String.prefix p t = true -> String.prefix q t = true ->
              String.prefix p q = true \/ String.prefix q p = true.
Proof.
  induction t as [|c t IH]; intros p q Hp Hq.
  - destruct p; [|discriminate]. left; apply prefix_nil.
  - destruct p as [|a p]; [left; apply prefix_nil|].
    destruct q as [|b q]; [right; apply prefix_nil|].
    simpl in Hp, Hq |- *.
    destruct (ascii_dec a c) as [->|]; [|discriminate].
    destruct (ascii_dec b c) as [->|]; [|discriminate].
    destruct (ascii_dec c c) as [_|n]; [|contradiction].
    apply IH; assumption.
Qed.

(** No route name is a prefix of another, so at most one route matches a
    token and the order of the map iteration cannot be observed. *)
Lemma routes_exclusive (env : Ssh.Env) (tok p q : string) (f g : Ssh.Handler) :
  In (p, f) (Ssh.routes env) -> In (q, g) (Ssh.routes env) ->
  Go.HasPrefix tok p = true -> Go.HasPrefix tok q = true -> g = f.
Proof.
  unfold Go.HasPrefix; intros Hp Hq Pp Pq.
  destruct (prefix_both _ _ _ Pp Pq) as [E|E]; clear Pp Pq;
    simpl in Hp, Hq;
    repeat match goal with
           | H : _ \/ _ |- _ => destruct H
           | H : False |- _ => contradiction
           | H : (_, _) = (_, _) |- _ => inversion H; clear H; subst
           end;
    try reflexivity; vm_compute in E; discriminate.
Qed.

Lemma route_unique (rs : list (string * Ssh.Handler)) (tok p : string) (f : Ssh.Handler) :
  In (p, f) rs -> Go.HasPrefix tok p = true ->
  (forall q g, In (q, g) rs -> Go.HasPrefix tok q = true -> g = f) ->
  Ssh.route rs tok = Some f.
Proof.
  induction rs as [|[q g] rs IH]; intros Hin Hp Hun; [contradiction|].
  simpl. destruct (Go.HasPrefix tok q) eqn:E.
  - f_equal. apply (Hun q g); [left; reflexivity|assumption].
  - destruct Hin as [Heq|Hin].
    + inversion Heq; subst; congruence.
    + apply IH; auto. intros q' g' H; apply Hun; right; assumption.
Qed.

Lemma route_none (rs : list (string * Ssh.Handler)) (tok : string) :
  (forall q g, In (q, g) rs -> Go.HasPrefix tok q = false) ->
  Ssh.route rs tok = None.
Proof.
  induction rs as [|[q g] rs IH]; intro H; [reflexivity|].
  simpl. rewrite (H q g) by (left; reflexivity).
  apply IH. intros q' g' Hin; apply (H q' g'); right; assumption.
Qed.

(** Dispatch on a matching route, for any order of the map iteration. *)
Lemma dispatch (env : Ssh.Env) (rs : list (string * Ssh.Handler)) (c : Config)
  (hosts : list string) (tok : string) (rest : list string) (p : string)
  (f : Ssh.Handler) :
  Permutation rs (Ssh.routes env) -> In (p, f) (Ssh.routes env) ->
  Go.HasPrefix tok p = true ->
  Ssh.newRouterWith rs c hosts (tok :: rest) = f c (tok :: rest) hosts.
Proof.
  intros Hperm Hin Hp. unfold Ssh.newRouterWith.
  rewrite (route_unique rs tok p f); [reflexivity| |assumption|].
  - apply (Permutation_in _ (Permutation_sym Hperm)); assumption.
  - intros q g Hq Pq. apply (routes_exclusive env tok p q f g); auto.
    apply (Permutation_in _ Hperm); assumption.
Qed.

Lemma dispatch_unknown (env : Ssh.Env) (rs : list (string * Ssh.Handler)) (c : Config)
  (hosts : list string) (tok : string) (rest : list string) :
  Permutation rs (Ssh.routes env) ->
  (forall q g, In (q, g) (Ssh.routes env) -> Go.HasPrefix tok q = false) ->
  Ssh.newRouterWith rs c hosts (tok :: rest)
  = (c, Ssh.mkReply "Not Found" (Some 404)).
Proof.
  intros Hperm H. unfold Ssh.newRouterWith.
  rewrite route_none; [reflexivity|].
  intros q g Hin. apply (H q g). apply (Permutation_in _ Hperm); assumption.
Qed.

(** The order of the map iteration does not change the answer. *)
Lemma newRouterWith_order (env : Ssh.Env) (rs : list (string * Ssh.Handler))
  (c : Config) (hosts cmd : list string) :
  Permutation rs (Ssh.routes env) ->
  Ssh.newRouterWith rs c hosts cmd = Ssh.newRouter env c hosts cmd.
Proof.
  intro Hperm. destruct cmd as [|tok rest]; [reflexivity|].
  destruct (Ssh.route (Ssh.routes env) tok) as [f|] eqn:E.
  - assert (exists p, In (p, f) (Ssh.routes env) /\ Go.HasPrefix tok p = true)
      as (p & Hin & Hp).
    { clear Hperm. revert E. generalize (Ssh.routes env).
      induction l as [|[q g] l IH]; simpl; [discriminate|].
      destruct (Go.HasPrefix tok q) eqn:Eq; intro E.
      - inversion E; subst. exists q; auto.
      - destruct (IH E) as (p & Hin & Hp). exists p; auto. }
    rewrite (dispatch env rs c hosts tok rest p f Hperm Hin Hp).
    symmetry. apply (dispatch env _ c hosts tok rest p f (Permutation_refl _) Hin Hp).
  - assert (H : forall q g, In (q, g) (Ssh.routes env) -> Go.HasPrefix tok q = false).
    { clear Hperm. revert E. generalize (Ssh.routes env).
      induction l as [|[q g] l IH]; simpl; [contradiction|].
      destruct (Go.HasPrefix tok q) eqn:Eq; [discriminate|].
      intros E q' g' [Heq|Hin]; [inversion Heq; subst; assumption|eauto]. }
    rewrite (dispatch_unknown env rs c hosts tok rest Hperm H).
    symmetry. apply (dispatch_unknown env _ c hosts tok rest (Permutation_refl _) H).
Qed.

(** ** The state-changing handlers *)

Lemma setStateLoop_none (env : Ssh.Env) (name : string) (st : State) (i : string)
  (hosts : list string) (l : list Service) :
  (forall x, In x l -> addressed hosts name x = false) ->
  Ssh.setStateLoop env name st i hosts l = None.
Proof.
  induction l as [|x l IH]; intro H; [reflexivity|].
  simpl. assert (Hx := H x (or_introl eq_refl)).
  unfold addressed in Hx.
  rewrite IH by (intros y Hy; apply H; right; assumption).
  destruct (forMe x hosts); simpl in *; [rewrite Hx|]; reflexivity.
Qed.

Lemma setStateLoop_found (env : Ssh.Env) (name : string) (st : State) (i : string)
  (hosts : list string) (pre : list Service) (s : Service) (post : list Service) :
  (forall x, In x pre -> addressed hosts name x = false) ->
  addressed hosts name s = true ->
  Ssh.setStateLoop env name st i hosts (pre ++ s :: post)
  = Some (pre ++ SetState (Ssh.Now env) s st i :: post).
Proof.
  intros Hpre Hs. induction pre as [|x pre IH]; simpl.
  - unfold addressed in Hs. apply andb_prop in Hs as [-> ->]. reflexivity.
  - assert (Hx := Hpre x (or_introl eq_refl)). unfold addressed in Hx.
    rewrite IH by (intros y Hy; apply Hpre; right; assumption).
    destruct (forMe x hosts); simpl in *; [rewrite Hx|]; reflexivity.
Qed.

(** The loop touches nothing but the status of one service. *)
Lemma setStateLoop_shape (env : Ssh.Env) (name : string) (st : State) (i : string)
  (hosts : list string) (l l' : list Service) :
  Ssh.setStateLoop env name st i hosts l = Some l' ->
  exists pre s post,
    l = pre ++ s :: post /\ l' = pre ++ SetState (Ssh.Now env) s st i :: post
    /\ addressed hosts name s = true
    /\ forall x, In x pre -> addressed hosts name x = false.
Proof.
  revert l'. induction l as [|x l IH]; intros l' H; [discriminate|].
  simpl in H.
  destruct (forMe x hosts) eqn:Ef; simpl in H.
  - destruct (String.eqb (Service_ x) name) eqn:En.
    + inversion H; subst. exists [], x, l.
      repeat split; try (intros ? []).
      unfold addressed; rewrite Ef, En; reflexivity.
    + destruct (Ssh.setStateLoop env name st i hosts l) as [l0|]; [|discriminate].
      inversion H; subst.
      destruct (IH l0 eq_refl) as (pre & s & post & -> & -> & Hs & Hpre).
      exists (x :: pre), s, post. repeat split; try assumption.
      intros y [<-|Hy]; [|apply Hpre; assumption].
      unfold addressed; rewrite Ef, En; reflexivity.
  - destruct (Ssh.setStateLoop env name st i hosts l) as [l0|]; [|discriminate].
    inversion H; subst.
    destruct (IH l0 eq_refl) as (pre & s & post & -> & -> & Hs & Hpre).
    exists (x :: pre), s, post. repeat split; try assumption.
    intros y [<-|Hy]; [|apply Hpre; assumption].
    unfold addressed; rewrite Ef; reflexivity.
Qed.

(** C1, as stated, fails: the four-character string abcd is not a
    40-character hexadecimal string, yet [state/rollback web abcd] is
    answered OK with status 0 and the service web is put in ROLLBACK with
    abcd as its info. *)
Lemma C1_counterexample :
  isHash40 "abcd" = false
  /\ Ssh.newRouter Samples.env0 Samples.conf0 Samples.hosts0
       ["/state/rollback"; "web"; "abcd"]
     = (mkConfig Samples.global0
          [SetState 1000 Samples.web StateRollback "abcd"; Samples.db] (mkKeys []),
        Ssh.mkReply "OK" (Some 0)).
Proof. split; vm_compute; reflexivity. Qed.

(** C1, amended: a rollback command whose hash argument is not a
    hexadecimal string of even length (that is, [hex.DecodeString] fails on
    it) is rejected with 406 Not Acceptable, and the configuration, hence
    every service's state, is returned unchanged.  The length of the hash
    is not examined. *)
Theorem C1_rollback_rejects_undecodable (env : Ssh.Env) (c : Config)
  (hosts : list string) (tok name hash : string) (rest : list string) :
  Go.HasPrefix tok "/state/rollback" = true ->
  evenHex hash = false ->
  Ssh.newRouter env c hosts (tok :: name :: hash :: rest)
  = (c, Ssh.mkReply ("Not Acceptable, not a valid git hash: " ++ hash)%string (Some 406)).
Proof.
  intros Hp Hhex. unfold Ssh.newRouter.
  rewrite (dispatch env _ c hosts tok (name :: hash :: rest) "/state/rollback"
             (Ssh.RollbackService env) (Permutation_refl _));
    [|simpl; tauto|assumption].
  unfold Ssh.RollbackService.
  destruct (Decode_rejects hash Hhex) as [e ->]. reflexivity.
Qed.

Lemma C1_rollback_rejects_undecodable_witness :
  Ssh.newRouter Samples.env0 Samples.conf0 Samples.hosts0
    ["/state/rollback"; "web"; "HEAD~1"]
  = (Samples.conf0,
     Ssh.mkReply "Not Acceptable, not a valid git hash: HEAD~1" (Some 406)).
Proof.
  apply (C1_rollback_rejects_undecodable Samples.env0 Samples.conf0 Samples.hosts0
           "/state/rollback" "web" "HEAD~1" []); reflexivity.
Defined.

(** C5: [state/freeze name] puts FREEZE with empty info, and
    [state/unfreeze name] puts OK with empty info, on the first service
    that is for this host and carries the name, and on no other; the reply
    is OK with status 0.  When no service for this host carries the name
    the reply is 404 Not Found and the configuration is unchanged. *)
Theorem C5_freeze_unfreeze (env : Ssh.Env) (c : Config) (hosts : list string)
  (tok name : string) (rest : list string) (st : State) :
  (tok = "/state/freeze" /\ st = StateFreeze)
  \/ (tok = "/state/unfreeze" /\ st = StateOK) ->
  (forall pre s post,
      Services c = pre ++ s :: post ->
      (forall x, In x pre -> addressed hosts name x = false) ->
      addressed hosts name s = true ->
      Ssh.newRouter env c hosts (tok :: name :: rest)
      = (Ssh.withServices c (pre ++ SetState (Ssh.Now env) s st "" :: post),
         Ssh.mkReply "OK" (Some 0)))
  /\ ((forall x, In x (Services c) -> addressed hosts name x = false) ->
      Ssh.newRouter env c hosts (tok :: name :: rest)
      = (c, Ssh.mkReply "Not Found" (Some 404))).
Proof.
  intro Hcmd.
  assert (Hrun : Ssh.newRouter env c hosts (tok :: name :: rest)
                 = Ssh.freezeStateService env st c (tok :: name :: rest) hosts).
  { destruct Hcmd as [[-> ->]|[-> ->]]; reflexivity. }
  rewrite Hrun. unfold Ssh.freezeStateService. split.
  - intros pre s post Hc Hpre Hs.
    rewrite Hc, (setStateLoop_found env name st "" hosts pre s post Hpre Hs).
    reflexivity.
  - intro Hnone. rewrite (setStateLoop_none env name st "" hosts _ Hnone).
    reflexivity.
Qed.

Lemma C5_freeze_unfreeze_witness :
  Ssh.newRouter Samples.env0 Samples.conf0 Samples.hosts0 ["/state/freeze"; "web"]
  = (mkConfig Samples.global0
       [SetState 1000 Samples.web StateFreeze ""; Samples.db] (mkKeys []),
     Ssh.mkReply "OK" (Some 0))
  /\ Ssh.newRouter Samples.env0 Samples.conf0 Samples.hosts0 ["/state/unfreeze"; "db"]
     = (Samples.conf0, Ssh.mkReply "Not Found" (Some 404)).
Proof.
  split.
  - apply (proj1 (C5_freeze_unfreeze Samples.env0 Samples.conf0 Samples.hosts0
                    "/state/freeze" "web" [] StateFreeze (or_introl (conj eq_refl eq_refl)))
             [] Samples.web [Samples.db]).
    + reflexivity.
    + intros x [].
    + reflexivity.
  - apply (proj2 (C5_freeze_unfreeze Samples.env0 Samples.conf0 Samples.hosts0
                    "/state/unfreeze" "db" [] StateOK (or_intror (conj eq_refl eq_refl)))).
    intros x [<-|[<-|[]]]; reflexivity.
Defined.

(** The statuses a handler can set: one of 0, 400, 404, 406 and 500, or
    none at all, and the latter only for a rollback command with fewer
    than three tokens. *)
Lemma exit_status_codes (env : Ssh.Env) (c : Config) (hosts cmd : list string) :
  match Ssh.exited (snd (Ssh.newRouter env c hosts cmd)) with
  | Some z => In z [0; 400; 404; 406; 500]
  | None => exists tok, Go.HasPrefix tok "/state/rollback" = true
                        /\ (cmd = [tok] \/ exists name, cmd = [tok; name])
  end.
Proof.
  destruct cmd as [|tok rest]; [simpl; tauto|].
  unfold Ssh.newRouter, Ssh.newRouterWith, Ssh.routes, Ssh.route.
  destruct (Go.HasPrefix tok "/list/machine").
  { unfold Ssh.ListMachines. destruct (Ssh.Marshal env _) as [data [err|]]; simpl; tauto. }
  destruct (Go.HasPrefix tok "/list/service").
  { unfold Ssh.ListService_. destruct (Ssh.listLoop env _ hosts (Services c)); [simpl; tauto|].
    destruct (Ssh.Marshal env _) as [data [err|]]; simpl; tauto. }
  destruct (Go.HasPrefix tok "/state/freeze").
  { unfold Ssh.FreezeService, Ssh.freezeStateService.
    destruct rest as [|name rest]; [simpl; tauto|].
    destruct (Ssh.setStateLoop env _ _ _ hosts (Services c)); simpl; tauto. }
  destruct (Go.HasPrefix tok "/state/unfreeze").
  { unfold Ssh.UnfreezeService, Ssh.freezeStateService.
    destruct rest as [|name rest]; [simpl; tauto|].
    destruct (Ssh.setStateLoop env _ _ _ hosts (Services c)); simpl; tauto. }
  destruct (Go.HasPrefix tok "/state/rollback") eqn:E; [|simpl; tauto].
  unfold Ssh.RollbackService.
  destruct rest as [|name [|hash rest]].
  - simpl. exists tok. auto.
  - simpl. exists tok. split; [assumption|]. right. exists name. reflexivity.
  - destruct (Go.DecodeString hash); [simpl; tauto|].
    destruct (Ssh.setStateLoop env _ _ _ hosts (Services c)); simpl; tauto.
Qed.

(** A list reply is the encoder's output, with status 0. *)
Lemma list_machines_reply (env : Ssh.Env) (c : Config) (hosts : list string)
  (rest : list string) (data : string) :
  Ssh.Marshal env
    (Ssh.ListMachinesPayload
       (map (fun s => Ssh.mkListMachine (Machine s) (Ssh.Hostname env)) (Services c)))
  = (data, None) ->
  Ssh.newRouter env c hosts ("/list/machine"%string :: rest)
  = (c, Ssh.mkReply data (Some 0)).
Proof.
  intro H. unfold Ssh.newRouter, Ssh.newRouterWith. cbn [Ssh.routes Ssh.route].
  change (Go.HasPrefix "/list/machine" "/list/machine") with true. cbv iota.
  unfold Ssh.ListMachines. rewrite H. reflexivity.
Qed.

(** C6 at its failing input: a rollback command with fewer than three
    tokens makes [RollbackService] return without writing a reply and
    without calling [s.Exit], so the handler sets no status at all, while
    [freezeStateService] answers a missing argument with 406. *)
Theorem C6_rollback_short_command_sets_no_status (env : Ssh.Env) (c : Config)
  (hosts : list string) (name : string) :
  Ssh.newRouter env c hosts ["/state/rollback"; name] = (c, Ssh.mkReply "" None)
  /\ Ssh.newRouter env c hosts ["/state/rollback"] = (c, Ssh.mkReply "" None)
  /\ Ssh.newRouter env c hosts ["/state/freeze"] = (c, Ssh.mkReply "" (Some 406)).
Proof. repeat split. Qed.

(** C10: a first token that has a route name as a prefix is handed to that
    route's handler, whatever follows the prefix and whatever the order of
    the map iteration. *)
Theorem C10_prefix_dispatch (env : Ssh.Env) (rs : list (string * Ssh.Handler))
  (c : Config) (hosts : list string) (tok : string) (rest : list string)
  (p : string) (f : Ssh.Handler) :
  Permutation rs (Ssh.routes env) ->
  In (p, f) (Ssh.routes env) ->
  Go.HasPrefix tok p = true ->
  Ssh.newRouterWith rs c hosts (tok :: rest) = f c (tok :: rest) hosts.
Proof. apply dispatch. Qed.

Lemma C10_prefix_dispatch_witness :
  Ssh.newRouterWith (Ssh.routes Samples.env0) Samples.conf0 Samples.hosts0
    ["/state/freezer"; "web"]
  = Ssh.FreezeService Samples.env0 Samples.conf0 ["/state/freezer"; "web"] Samples.hosts0.
Proof.
  apply (C10_prefix_dispatch Samples.env0 (Ssh.routes Samples.env0) Samples.conf0
           Samples.hosts0 "/state/freezer" ["web"] "/state/freeze"
           (Ssh.FreezeService Samples.env0)).
  - apply Permutation_refl.
  - simpl; tauto.
  - reflexivity.
Defined.

(** ** The supervisor: start-up *)

Lemma plain_bind {A B : Type} (m : Main.M A) (f : A -> Main.M B) :
  plain m -> (forall a, plain (f a)) -> plain (Main.bind m f).
Proof.
  unfold plain, Main.bind. intros Hm Hf.
  destruct m as [t [e|a]]; simpl in *; [assumption|].
  specialize (Hf a). destruct (f a) as [t' r]; assumption.
Qed.

Lemma plain_emit (ev : Main.Event) : plain (Main.emit ev).
Proof. exact I. Qed.

Lemma plain_ret {A : Type} (a : A) : plain (Main.ret a).
Proof. exact I. Qed.

Ltac plain_step :=
  repeat first
    [ exact I | exact (eq_refl false)
    | apply plain_bind; [|intro]
    | match goal with
      | |- plain (match ?x with _ => _ end) => destruct x
      | |- plain (if ?b then _ else _) => destruct b
      end ].

Lemma plain_bootstrap (w : Main.World) (exec : Main.ExecContext) (self : option Service) :
  plain (Main.bootstrap w exec self).
Proof. unfold Main.bootstrap. plain_step. Qed.

Lemma plain_loadConfig (w : Main.World) (source : string) (self : option Service) :
  plain (Main.loadConfig w source self).
Proof. unfold Main.loadConfig. plain_step. Qed.

Lemma plain_loadKeys (w : Main.World) (exec : Main.ExecContext) (self : option Service)
  (paths : list string) :
  plain (Main.loadKeys w exec self paths).
Proof.
  induction paths as [|p paths IH]; [exact I|].
  cbn [Main.loadKeys].
  apply plain_bind; [apply plain_emit|intros _].
  apply plain_bind; [apply plain_emit|intros _].
  destruct (Main.ReadFile w _); [exact (eq_refl false)|].
  apply plain_bind; [apply plain_emit|intros _].
  destruct (Main.ParseAuthorizedKey w _); [exact (eq_refl false)|].
  apply plain_bind; [exact IH|intro; exact I].
Qed.

Lemma plain_serve (w : Main.World) (addr : string) : plain (Main.serve w addr).
Proof. unfold Main.serve. plain_step. Qed.

Lemma plain_startup (w : Main.World) (exec : Main.ExecContext) :
  plain (Main.startup w exec).
Proof.
  unfold Main.startup.
  destruct (negb (Main.Geteuid w =? 0)); [exact (eq_refl false)|].
  apply plain_bind; [exact I|intros _].
  destruct (String.eqb (Main.ConfigSource exec) ""); [exact (eq_refl false)|].
  apply plain_bind; [apply plain_bootstrap|intro].
  apply plain_bind; [apply plain_loadConfig|intro].
  apply plain_bind; [apply plain_loadKeys|intro].
  apply plain_bind; [apply plain_serve|intro].
  apply plain_bind; [apply plain_serve|intro].
  apply plain_bind; [apply plain_emit|intro; exact I].
Qed.

Lemma startup_error_plain (w : Main.World) (exec : Main.ExecContext)
  (t : list Main.Event) (e : Main.error) :
  Main.startup w exec = (t, inl e) -> Main.errors_Is_ErrHUP e = false.
Proof. intro H. generalize (plain_startup w exec). rewrite H. exact (fun x => x). Qed.

(** ** The supervisor: the service loop *)

Lemma forMe_In (s : Service) (hosts : list string) :
  forMe s hosts = true <-> In (Machine s) hosts.
Proof.
  unfold forMe. rewrite existsb_exists. split.
  - intros (h & Hin & Heq). apply String.eqb_eq in Heq. subst. assumption.
  - intro Hin. exists (Machine s). split; [assumption|apply String.eqb_refl].
Qed.

(** Case analysis along the branches of one iteration. *)
Ltac iteration w i s :=
  unfold Main.startService; cbn zeta;
  repeat match goal with
         | H : forMe _ _ = _ |- _ => rewrite H
         end;
  cbn [negb];
  destruct (String.eqb (Package s) "") eqn:?; cbn [fst snd];
  [|destruct (Main.Install w i (Package s)) eqn:?];
  (destruct (Main.Checkout w i s) eqn:?;
   [|destruct (Main.bindmount w i s) as [?|mounts] eqn:?;
     [|destruct (mounts >? 0); [destruct (Main.systemctl w i s)|]]]);
  cbn [Main.counted Main.after Main.spawned Main.events].

Lemma counted_forMe (w : Main.World) (hosts : list string) (g : Service) (i : nat)
  (serv : Service) :
  Main.counted (Main.startService w hosts g i serv) = forMe serv hosts.
Proof.
  destruct (forMe serv hosts) eqn:E.
  - iteration w i (merge serv g); reflexivity.
  - unfold Main.startService. rewrite E. reflexivity.
Qed.

Lemma skipped (w : Main.World) (hosts : list string) (g : Service) (i : nat)
  (serv : Service) :
  forMe serv hosts = false ->
  Main.startService w hosts g i serv = Main.mkIteration false serv false [].
Proof. intro E. unfold Main.startService. rewrite E. reflexivity. Qed.

(** A worker is started exactly when the service is for this host and
    package install, checkout and bind mounts all succeed. *)
Lemma spawned_iff (w : Main.World) (hosts : list string) (g : Service) (i : nat)
  (serv : Service) :
  Main.spawned (Main.startService w hosts g i serv) = true
  <-> forMe serv hosts = true
      /\ (Package (merge serv g) = ""%string
          \/ Main.Install w i (Package (merge serv g)) = None)
      /\ Main.Checkout w i (merge serv g) = None
      /\ exists n, Main.bindmount w i (merge serv g) = inr n.
Proof.
  destruct (forMe serv hosts) eqn:E.
  - iteration w i (merge serv g);
      repeat match goal with
             | H : String.eqb _ _ = true |- _ => apply String.eqb_eq in H
             | H : String.eqb _ _ = false |- _ => apply String.eqb_neq in H
             end;
      split; intro H;
      try discriminate;
      try (repeat split; eauto; fail);
      destruct H as (_ & Hi & Hc & n & Hb);
      try discriminate; try reflexivity;
      destruct Hi; congruence.
  - rewrite skipped by assumption. simpl.
    split; [discriminate|intros [H _]; discriminate].
Qed.

Lemma startServices_none (w : Main.World) (hosts : list string) (g : Service)
  (l : list Service) :
  forall i, (forall s, In s l -> forMe s hosts = false) ->
            Main.startServices w hosts g i l = Main.mkStarted 0 l [] [].
Proof.
  induction l as [|serv l IH]; intros i H; [reflexivity|].
  cbn [Main.startServices].
  rewrite skipped by (apply H; left; reflexivity).
  rewrite IH by (intros s Hs; apply H; right; assumption).
  reflexivity.
Qed.

Lemma servCnt_zero (w : Main.World) (hosts : list string) (g : Service)
  (l : list Service) :
  forall i, Main.servCnt (Main.startServices w hosts g i l) = 0%nat <->
            forall s, In s l -> forMe s hosts = false.
Proof.
  induction l as [|serv l IH]; intro i.
  - simpl. split; [intros _ s []|reflexivity].
  - cbn [Main.startServices Main.servCnt]. rewrite counted_forMe.
    split.
    + intros H s [<-|Hs].
      * destruct (forMe serv hosts); [discriminate|reflexivity].
      * apply (proj1 (IH (S i))); [|assumption].
        destruct (forMe serv hosts); [discriminate|assumption].
    + intro H. rewrite (H serv (or_introl eq_refl)).
      apply (proj2 (IH (S i))). intros s Hs; apply H; right; assumption.
Qed.

(** Every service gets its iteration: the k-th entry of the result is what
    the k-th iteration left, whatever happened to the others. *)
Lemma startServices_nth (w : Main.World) (hosts : list string) (g : Service)
  (l : list Service) :
  forall i k serv,
    nth_error l k = Some serv ->
    nth_error (Main.services (Main.startServices w hosts g i l)) k
    = Some (Main.after (Main.startService w hosts g (i + k) serv)).
Proof.
  induction l as [|x l IH]; intros i k serv H.
  - destruct k; discriminate.
  - destruct k as [|k]; cbn [Main.startServices Main.services nth_error] in *.
    + inversion H; subst. rewrite Nat.add_0_r. reflexivity.
    + rewrite (IH (S i) k serv H). rewrite Nat.add_succ_r. reflexivity.
Qed.

Lemma startServices_length (w : Main.World) (hosts : list string) (g : Service)
  (l : list Service) :
  forall i, List.length (Main.services (Main.startServices w hosts g i l)) = List.length l.
Proof.
  induction l as [|x l IH]; intro i; [reflexivity|].
  cbn [Main.startServices Main.services List.length]. rewrite IH. reflexivity.
Qed.

Lemma workers_In (w : Main.World) (hosts : list string) (g : Service)
  (l : list Service) :
  forall i j s',
    In (j, s') (Main.workers (Main.startServices w hosts g i l))
    <-> exists k serv,
        j = (i + k)%nat /\ nth_error l k = Some serv
        /\ Main.spawned (Main.startService w hosts g j serv) = true
        /\ s' = Main.after (Main.startService w hosts g j serv).
Proof.
  induction l as [|x l IH]; intros i j s'.
  - simpl. split; [intros []|intros (k & serv & _ & H & _); destruct k; discriminate].
  - cbn [Main.startServices Main.workers]. rewrite in_app_iff, IH. split.
    + intros [H|(k & serv & -> & Hn & Hs & ->)].
      * destruct (Main.spawned (Main.startService w hosts g i x)) eqn:E; [|contradiction].
        destruct H as [H|[]]. inversion H; subst.
        exists 0%nat, x. rewrite Nat.add_0_r. auto.
      * exists (S k), serv. rewrite Nat.add_succ_r. auto.
    + intros (k & serv & -> & Hn & Hs & ->). destruct k as [|k].
      * left. rewrite Nat.add_0_r in *. simpl in Hn. inversion Hn; subst.
        rewrite Hs. left; reflexivity.
      * right. exists k, serv. rewrite Nat.add_succ_r in *. auto.
Qed.

Lemma broken_on_checkout (w : Main.World) (hosts : list string) (g : Service) (i : nat)
  (serv : Service) (err : string) :
  forMe serv hosts = true ->
  Package (merge serv g) = ""%string \/ Main.Install w i (Package (merge serv g)) = None ->
  Main.Checkout w i (merge serv g) = Some err ->
  state (status (Main.after (Main.startService w hosts g i serv))) = StateBroken
  /\ Main.spawned (Main.startService w hosts g i serv) = false.
Proof.
  intros E Hi Hc. iteration w i (merge serv g);
    try (apply String.eqb_neq in Heqb); try (split; reflexivity);
    try discriminate; destruct Hi; congruence.
Qed.

Lemma broken_on_bindmount (w : Main.World) (hosts : list string) (g : Service) (i : nat)
  (serv : Service) (err : string) :
  forMe serv hosts = true ->
  Package (merge serv g) = ""%string \/ Main.Install w i (Package (merge serv g)) = None ->
  Main.Checkout w i (merge serv g) = None ->
  Main.bindmount w i (merge serv g) = inl err ->
  state (status (Main.after (Main.startService w hosts g i serv))) = StateBroken
  /\ Main.spawned (Main.startService w hosts g i serv) = false.
Proof.
  intros E Hi Hc Hb. iteration w i (merge serv g);
    try (apply String.eqb_neq in Heqb); try (split; reflexivity);
    try discriminate; destruct Hi; congruence.
Qed.

Lemma skipped_on_install (w : Main.World) (hosts : list string) (g : Service) (i : nat)
  (serv : Service) (err : string) :
  forMe serv hosts = true ->
  Package (merge serv g) <> ""%string ->
  Main.Install w i (Package (merge serv g)) = Some err ->
  Main.after (Main.startService w hosts g i serv) = merge serv g
  /\ Main.spawned (Main.startService w hosts g i serv) = false.
Proof.
  intros E Hp Hi. iteration w i (merge serv g);
    try (apply String.eqb_eq in Heqb; contradiction);
    try (split; reflexivity); discriminate.
Qed.

(** Once start-up has reached the service loop, [run] does not return an
    error of its own: it returns nil when no service was counted and
    otherwise waits for the signal. *)
Lemma run_ready (w : Main.World) (exec : Main.ExecContext) (t : list Main.Event)
  (rdy : Main.Ready) :
  Main.startup w exec = (t, inr rdy) ->
  let st := Main.startServices w (Main.Hosts exec) (Global (Main.cfg rdy)) 0
              (Services (Main.cfg rdy)) in
  Main.final (Main.run w exec) = Main.services st
  /\ Main.started (Main.run w exec) = Main.workers st
  /\ Main.outcome (Main.run w exec)
     = if Nat.eqb (Main.servCnt st) 0 then Main.Returned None else Main.await w exec.
Proof.
  intro H. unfold Main.run. rewrite H. cbn zeta.
  destruct (Nat.eqb _ 0); repeat split.
Qed.

(** C2, as stated, fails: on a host where the package manager fails on
    haproxy, the service proxy (for this host, third in the config) is
    skipped but its state stays OK; it is not marked BROKEN. *)
Lemma C2_counterexample :
  forMe Samples.proxy Samples.hosts0 = true
  /\ Main.Install Samples.worldNoPackage 2 (Package Samples.proxy) = Some "exit status 100"%string
  /\ state (status (Main.after
       (Main.startService Samples.worldNoPackage Samples.hosts0 Samples.global0 2
          Samples.proxy))) = StateOK
  /\ map (fun s => state (status s))
       (Main.final (Main.run Samples.worldNoPackage
                      (Main.parseFlags Samples.worldNoPackage Samples.flags0)))
     = [StateOK; StateOK; StateOK].
Proof. repeat split. Qed.

(** C2, amended: in the service loop of [run], every service of this host
    gets its iteration whatever happened to the others; a failed Checkout
    or a failed bind mount sets that service's state to BROKEN and starts
    no worker for it; a failed package install is tolerated too, the
    service being skipped with its state left as it was; and once the loop
    is reached [run] returns no start-up error. *)
Theorem C2_startup_failures_tolerated (w : Main.World) (hosts : list string)
  (g : Service) (l : list Service) (k : nat) (serv : Service) :
  nth_error l k = Some serv ->
  forMe serv hosts = true ->
  let s := merge serv g in
  let it := Main.startService w hosts g k serv in
  nth_error (Main.services (Main.startServices w hosts g 0 l)) k = Some (Main.after it)
  /\ (forall err,
         Package s = ""%string \/ Main.Install w k (Package s) = None ->
         Main.Checkout w k s = Some err ->
         state (status (Main.after it)) = StateBroken /\ Main.spawned it = false)
  /\ (forall err,
         Package s = ""%string \/ Main.Install w k (Package s) = None ->
         Main.Checkout w k s = None ->
         Main.bindmount w k s = inl err ->
         state (status (Main.after it)) = StateBroken /\ Main.spawned it = false)
  /\ (forall err,
         Package s <> ""%string ->
         Main.Install w k (Package s) = Some err ->
         Main.after it = s /\ Main.spawned it = false)
  /\ (forall exec t rdy,
         Main.startup w exec = (t, inr rdy) ->
         Main.outcome (Main.run w exec) = Main.Returned None
         \/ Main.outcome (Main.run w exec) = Main.await w exec).
Proof.
  intros Hn E s it. repeat split.
  - apply (startServices_nth w hosts g l 0 k serv Hn).
  - apply (broken_on_checkout w hosts g k serv err); assumption.
  - apply (broken_on_checkout w hosts g k serv err); assumption.
  - apply (broken_on_bindmount w hosts g k serv err); assumption.
  - apply (broken_on_bindmount w hosts g k serv err); assumption.
  - apply (skipped_on_install w hosts g k serv err); assumption.
  - apply (skipped_on_install w hosts g k serv err); assumption.
  - intros exec t rdy H.
    destruct (run_ready w exec t rdy H) as (_ & _ & ->).
    destruct (Nat.eqb _ 0); [left|right]; reflexivity.
Qed.

Lemma C2_startup_failures_tolerated_witness :
  nth_error
    (Main.services
       (Main.startServices Samples.worldNoGit Samples.hosts0 Samples.global0 0
          (Services Samples.conf1))) 0
  = Some (Main.after
            (Main.startService Samples.worldNoGit Samples.hosts0 Samples.global0 0
               Samples.web))
  /\ state (status (Main.after
        (Main.startService Samples.worldNoGit Samples.hosts0 Samples.global0 0
           Samples.web))) = StateBroken.
Proof.
  pose proof (C2_startup_failures_tolerated Samples.worldNoGit Samples.hosts0
                Samples.global0 (Services Samples.conf1) 0 Samples.web
                eq_refl eq_refl) as (H1 & H2 & _).
  split; [exact H1|].
  exact (proj1 (H2 "exit status 128"%string (or_introl eq_refl) eq_refl)).
Defined.

(** C4, as stated, fails: on a host where the first checkout fails, the
    service web is for this host (its machine alpha is the OS host name)
    and yet no worker is started for it; the only worker is the one of
    proxy, the third service. *)
Lemma C4_counterexample :
  In (Machine Samples.web)
    (Main.Hosts (Main.parseFlags Samples.worldNoGit Samples.flags0))
  /\ nth_error (Services Samples.conf1) 0 = Some Samples.web
  /\ Main.started (Main.run Samples.worldNoGit
                     (Main.parseFlags Samples.worldNoGit Samples.flags0))
     = [(2%nat, merge Samples.proxy Samples.global0)].
Proof. repeat split. left; reflexivity. Qed.

(** C4, amended: a worker goroutine is started for the k-th configured
    service S only if S.machine is a member of the host-identity set (the
    OS host name plus the hosts given with -h); it is started exactly when,
    in addition, the package install (if any), the initial Checkout and
    the bind mounts of S succeed. *)
Theorem C4_worker_iff (w : Main.World) (f : Main.Flags) (g : Service)
  (l : list Service) (k : nat) (serv : Service) :
  nth_error l k = Some serv ->
  let hosts := Main.Hosts (Main.parseFlags w f) in
  let s := merge serv g in
  let spawnedFor := exists s', In (k, s') (Main.workers (Main.startServices w hosts g 0 l)) in
  hosts = Main.OSHostname w :: Main.flagH f
  /\ (spawnedFor -> In (Machine serv) hosts)
  /\ (spawnedFor <->
      In (Machine serv) hosts
      /\ (Package s = ""%string \/ Main.Install w k (Package s) = None)
      /\ Main.Checkout w k s = None
      /\ exists n, Main.bindmount w k s = inr n).
Proof.
  intros Hn hosts s spawnedFor.
  assert (Hiff : spawnedFor <-> Main.spawned (Main.startService w hosts g k serv) = true).
  { unfold spawnedFor. split.
    - intros (s' & Hin). apply workers_In in Hin as (k' & serv' & Hk & Hn' & Hs & _).
      simpl in Hk. subst k'. congruence.
    - intro Hs. eexists. apply workers_In. exists k, serv. auto. }
  split; [reflexivity|]. split.
  - intro H. apply Hiff, spawned_iff in H. apply forMe_In, H.
  - rewrite Hiff, spawned_iff, forMe_In. reflexivity.
Qed.

Lemma C4_worker_iff_witness :
  (exists s', In (2%nat, s')
     (Main.workers
        (Main.startServices Samples.world0
           (Main.Hosts (Main.parseFlags Samples.world0 Samples.flags0))
           Samples.global0 0 (Services Samples.conf1))))
  <-> In (Machine Samples.proxy) (Main.Hosts (Main.parseFlags Samples.world0 Samples.flags0))
      /\ (Package (merge Samples.proxy Samples.global0) = ""%string
          \/ Main.Install Samples.world0 2 (Package (merge Samples.proxy Samples.global0))
             = None)
      /\ Main.Checkout Samples.world0 2 (merge Samples.proxy Samples.global0) = None
      /\ exists n, Main.bindmount Samples.world0 2 (merge Samples.proxy Samples.global0)
                   = inr n.
Proof.
  exact (proj2 (proj2 (C4_worker_iff Samples.world0 Samples.flags0 Samples.global0
                         (Services Samples.conf1) 2 Samples.proxy eq_refl))).
Defined.

(** C9: when start-up has reached the service loop and no configured
    service is for this host, [run] logs the warning and returns nil at
    once, no worker and no config tracker having been started; the exit
    status is 0. *)
Theorem C9_no_service_for_host (w : Main.World) (exec : Main.ExecContext)
  (t : list Main.Event) (rdy : Main.Ready) :
  Main.startup w exec = (t, inr rdy) ->
  (forall s, In s (Services (Main.cfg rdy)) -> forMe s (Main.Hosts exec) = false) ->
  Main.run w exec
  = Main.mkResult (Main.Returned None) (Services (Main.cfg rdy)) [] false
      (t ++ [Main.WarnNoServices (Main.Hosts exec)])
  /\ Main.exitStatus (Main.outcome (Main.run w exec)) = Some 0.
Proof.
  intros H Hnone.
  assert (E : Main.run w exec
              = Main.mkResult (Main.Returned None) (Services (Main.cfg rdy)) [] false
                  (t ++ [Main.WarnNoServices (Main.Hosts exec)])).
  { unfold Main.run. rewrite H.
    rewrite (startServices_none w (Main.Hosts exec) (Global (Main.cfg rdy)) _ 0%nat Hnone).
    reflexivity. }
  rewrite E. split; reflexivity.
Qed.

Lemma C9_no_service_for_host_witness :
  Main.outcome (Main.run Samples.worldElsewhere
                  (Main.parseFlags Samples.worldElsewhere Samples.flags0))
  = Main.Returned None
  /\ Main.started (Main.run Samples.worldElsewhere
                     (Main.parseFlags Samples.worldElsewhere Samples.flags0)) = []
  /\ Main.main Samples.worldElsewhere Samples.flags0 = Some 0.
Proof.
  destruct (C9_no_service_for_host Samples.worldElsewhere
              (Main.parseFlags Samples.worldElsewhere Samples.flags0)
              (fst (Main.startup Samples.worldElsewhere
                      (Main.parseFlags Samples.worldElsewhere Samples.flags0)))
              (Main.mkReady Samples.conf1 "/etc/gitopper.toml" None ["/etc/gitopper/ops.pub"%string])
              eq_refl) as [E1 E2].
  - intros s [<-|[<-|[<-|[]]]]; reflexivity.
  - unfold Main.main. rewrite E2, E1. repeat split.
Defined.

(** C3: the exit status of the process.  A start-up failure gives a
    status that is neither 0 nor 2 (it is 1, by [log.Fatal]); with no
    service for this host the status is 0; otherwise [run] waits for a
    signal and the status is 2 for SIGHUP, in which case and in no other
    [run] returns [ErrHUP], and 0 for SIGINT and SIGTERM. *)
Theorem C3_exit_status (w : Main.World) (f : Main.Flags) :
  let exec := Main.parseFlags w f in
  match Main.startup w exec with
  | (_, inl err) =>
      Main.outcome (Main.run w exec) = Main.Returned (Some err)
      /\ err <> Main.ErrHUP /\ Main.main w f = Some 1
  | (_, inr rdy) =>
      if forallb (fun s => negb (forMe s (Main.Hosts exec))) (Services (Main.cfg rdy))
      then Main.outcome (Main.run w exec) = Main.Returned None /\ Main.main w f = Some 0
      else
        match Main.FirstSignal w with
        | None => Main.outcome (Main.run w exec) = Main.Waiting /\ Main.main w f = None
        | Some Go.SIGHUP =>
            Main.outcome (Main.run w exec) = Main.Returned (Some Main.ErrHUP)
            /\ Main.main w f = Some 2
        | Some _ => Main.outcome (Main.run w exec) = Main.Returned None /\ Main.main w f = Some 0
        end
  end.
Proof.
  intro exec. unfold Main.main. fold exec.
  destruct (Main.startup w exec) as [t [err|rdy]] eqn:E.
  - pose proof (startup_error_plain w exec t err E) as Hplain.
    unfold Main.run. rewrite E. cbn [Main.outcome Main.exitStatus].
    rewrite Hplain. repeat split. intros ->. discriminate.
  - destruct (run_ready w exec t rdy E) as (_ & _ & ->).
    set (st := Main.startServices w (Main.Hosts exec) (Global (Main.cfg rdy)) 0
                 (Services (Main.cfg rdy))).
    destruct (forallb _ _) eqn:Eall.
    + assert (Main.servCnt st = 0%nat) as ->.
      { apply servCnt_zero. intros s Hs.
        rewrite forallb_forall in Eall. specialize (Eall s Hs).
        destruct (forMe s (Main.Hosts exec)); [discriminate|reflexivity]. }
      split; reflexivity.
    + destruct (Nat.eqb (Main.servCnt st) 0) eqn:Ez.
      * apply Nat.eqb_eq in Ez. unfold st in Ez.
        pose proof (proj1 (servCnt_zero w _ _ _ 0%nat) Ez) as Hz. clear Ez. rename Hz into Ez.
        assert (forallb (fun s => negb (forMe s (Main.Hosts exec)))
                  (Services (Main.cfg rdy)) = true).
        { apply forallb_forall. intros s Hs. rewrite (Ez s Hs). reflexivity. }
        congruence.
      * unfold Main.await. destruct (Main.FirstSignal w) as [[| |]|]; split; reflexivity.
Qed.

Lemma C3_exit_status_witness :
  Main.main Samples.world0 Samples.flags0 = Some 0
  /\ Main.main Samples.worldHUP Samples.flags0 = Some 2
  /\ Main.main Samples.worldUser Samples.flags0 = Some 1
  /\ Main.main Samples.worldElsewhere Samples.flags0 = Some 0.
Proof.
  split; [|split; [|split]].
  - exact (proj2 (C3_exit_status Samples.world0 Samples.flags0)).
  - exact (proj2 (C3_exit_status Samples.worldHUP Samples.flags0)).
  - exact (proj2 (proj2 (C3_exit_status Samples.worldUser Samples.flags0))).
  - exact (proj2 (C3_exit_status Samples.worldElsewhere Samples.flags0)).
Defined.

(** ** The supervisor: bootstrapping *)

Lemma bind_inr {A B : Type} (m : Main.M A) (f : A -> Main.M B) (t : list Main.Event)
  (b : B) :
  Main.bind m f = (t, inr b) ->
  exists t1 a t2, m = (t1, inr a) /\ f a = (t2, inr b) /\ t = t1 ++ t2.
Proof.
  unfold Main.bind. destruct m as [t1 [e|a]]; [discriminate|].
  destruct (f a) as [t2 r] eqn:E. intro H. inversion H; subst.
  exists t1, a, t2. auto.
Qed.



Lemma bootstrap_inr (w : Main.World) (exec : Main.ExecContext) (self : Service)
  (t : list Main.Event) (src : string) :
  Main.bootstrap w exec (Some self) = (t, inr src) ->
  Main.BootCheckout w self = None
  /\ src = Main.inTree w self (Main.Dir exec) (Main.ConfigSource exec)
  /\ t = [Main.InfoBootstrapping (Main.ExecUpstream exec) (Service_ self) (Machine self);
          Main.CallCheckout self]
         ++ (if Main.Pull exec then [Main.CallPull self] else [])
         ++ [Main.InfoSettingConfig src].
Proof.
  unfold Main.bootstrap, Main.bind, Main.emit, Main.ret, Main.fail.
  destruct (Main.BootCheckout w self); [discriminate|].
  destruct (Main.Pull exec); [destruct (Main.BootPull w self); [discriminate|]|];
    simpl; intro H; inversion H; subst; auto.
Qed.

Lemma loadConfig_inr (w : Main.World) (src : string) (self : Service)
  (t : list Main.Event) (c' : Config) :
  Main.loadConfig w src (Some self) = (t, inr c') ->
  exists doc c,
    Main.ReadFile w src = inr doc /\ Main.parseConfig w doc = inr c
    /\ c' = mkConfig (Global c) (Services c ++ [self]) (ConfigKeys c)
    /\ t = [Main.CallReadFile src; Main.CallParseConfig doc; Main.CallValid].
Proof.
  unfold Main.loadConfig, Main.bind, Main.emit, Main.ret, Main.fail.
  destruct (Main.ReadFile w src) as [e|doc] eqn:Hread; [discriminate|].
  destruct (Main.parseConfig w doc) as [e|c] eqn:Hparse; [discriminate|].
  destruct (Main.Valid w c); [discriminate|].
  simpl; intro H; inversion H; subst. exists doc, c. repeat split; assumption.
Qed.










(** ** The earlier main and the tick period *)

Lemma startAll_period (w : Legacy.World) (g : Service) (d : Z) (l : list Service) :
  forall i acc,
    (forall wk, In wk acc -> Legacy.period wk = d) ->
    match Legacy.startAll w g d i l acc with
    | Legacy.Fatal _ ws | Legacy.Serving ws => forall wk, In wk ws -> Legacy.period wk = d
    end.
Proof.
  induction l as [|s l IH]; intros i acc Hacc; [exact Hacc|].
  cbn [Legacy.startAll].
  destruct (Legacy.bindmount w i (merge s g)); [exact Hacc|].
  apply IH. intros wk Hin. apply in_app_or in Hin as [Hin|[<-|[]]]; auto.
Qed.

(** In the earlier main a failed bind mount ends the process, and a failed
    checkout is only logged: the worker is started all the same. *)
Lemma legacy_bindmount_fatal (w : Legacy.World) (g : Service) (d : Z) (s : Service)
  (rest : list Service) (err : string) :
  Legacy.bindmount w 0 (merge s g) = Some err ->
  Legacy.startAll w g d 0 (s :: rest) []
  = Legacy.Fatal ("Can not setup bind mounts: " ++ err)%string [].
Proof. intro H. cbn [Legacy.startAll]. rewrite H. reflexivity. Qed.

Lemma legacy_checkout_logged (w : Legacy.World) (g : Service) (d : Z) (s : Service)
  (err : string) :
  Legacy.Checkout w 0 (merge s g) = Some err ->
  Legacy.bindmount w 0 (merge s g) = None ->
  Legacy.startAll w g d 0 [s] [] = Legacy.Serving [Legacy.mkWorker (merge s g) d true].
Proof. intros Hc Hb. cbn [Legacy.startAll]. rewrite Hc, Hb. reflexivity. Qed.

(** C8, as stated, fails: the default of the -d flag is 30s, which is 30
    seconds and not 5 minutes, and with it the workers are started with a
    period of 30 seconds. *)
Lemma C8_counterexample :
  Time.ParseDuration (Legacy.flagDuration Legacy.defaultFlags) = Some (30 * Time.Second)
  /\ 30 * Time.Second <> 5 * Time.Minute
  /\ Legacy.main (Samples.legacyWorld (fun _ _ => None))
       (Samples.legacyFlags (Legacy.flagDuration Legacy.defaultFlags))
     = Legacy.Serving
         [Legacy.mkWorker (merge Samples.web Samples.global0) (30 * Time.Second) false;
          Legacy.mkWorker (merge Samples.db Samples.global0) (30 * Time.Second) false].
Proof. repeat split. discriminate. Qed.

(** C8, amended: the tick period of the -d flag defaults to 30 seconds;
    a lower bound of 5 seconds is enforced: for every configured duration
    strictly below 5 seconds start-up ends in a fatal error with no worker
    started, and every worker that is started was given the parsed
    duration, which is at least 5 seconds. *)
Theorem C8_minimum_period (w : Legacy.World) (f : Legacy.Flags) :
  Legacy.flagDuration Legacy.defaultFlags = "30s"%string
  /\ (forall d, Legacy.ParseDuration w (Legacy.flagDuration f) = inr d ->
                d < 5 * Time.Second ->
                exists msg, Legacy.main w f = Legacy.Fatal msg [])
  /\ (forall ws wk,
         (Legacy.main w f = Legacy.Serving ws \/ exists msg, Legacy.main w f = Legacy.Fatal msg ws) ->
         In wk ws ->
         Legacy.ParseDuration w (Legacy.flagDuration f) = inr (Legacy.period wk)
         /\ 5 * Time.Second <= Legacy.period wk).
Proof.
  split; [reflexivity|]. split.
  - intros d Hd Hlt. unfold Legacy.main.
    destruct (String.eqb (Legacy.flagConfig f) ""); [eauto|].
    rewrite Hd. apply Z.ltb_lt in Hlt. rewrite Hlt. eauto.
  - intros ws wk Hmain Hin. unfold Legacy.main in Hmain.
    assert (Hnil : forall msg, (Legacy.Fatal msg [] = Legacy.Serving ws
                                \/ exists msg', Legacy.Fatal msg [] = Legacy.Fatal msg' ws)
                               -> False).
    { intros msg [H|[msg' H]]; [discriminate|]. inversion H; subst. contradiction. }
    destruct (String.eqb (Legacy.flagConfig f) ""); [exfalso; eapply Hnil; eassumption|].
    destruct (Legacy.ParseDuration w (Legacy.flagDuration f)) as [e|d];
      [exfalso; eapply Hnil; eassumption|].
    destruct (d <? 5 * Time.Second) eqn:Hd; [exfalso; eapply Hnil; eassumption|].
    apply Z.ltb_ge in Hd.
    destruct (Legacy.ReadFile w _) as [e|doc]; [exfalso; eapply Hnil; eassumption|].
    destruct (Legacy.Unmarshal w doc) as [e|c]; [exfalso; eapply Hnil; eassumption|].
    destruct (Legacy.Valid w c); [exfalso; eapply Hnil; eassumption|].
    pose proof (startAll_period w (Global c) d (Services c) 0%nat []
                  (fun wk (H : In wk []) => match H with end)) as Hp.
    assert (Hwk : Legacy.period wk = d).
    { destruct Hmain as [Hmain|[msg Hmain]]; rewrite Hmain in Hp; auto. }
    rewrite Hwk. split; [reflexivity|assumption].
Qed.

Lemma C8_minimum_period_witness :
  exists msg, Legacy.main (Samples.legacyWorld (fun _ _ => None)) (Samples.legacyFlags "4999ms")
              = Legacy.Fatal msg [].
Proof.
  apply (proj1 (proj2 (C8_minimum_period (Samples.legacyWorld (fun _ _ => None))
                         (Samples.legacyFlags "4999ms")))
           (4999 * Time.Millisecond)).
  - reflexivity.
  - reflexivity.
Defined.

(** * Further properties of the control port *)

(** X1: the answer of the router does not depend on the order in which
    the route map is iterated. *)
Theorem X1_route_order_irrelevant (env : Ssh.Env) (rs : list (string * Ssh.Handler))
  (c : Config) (hosts cmd : list string) :
  Permutation rs (Ssh.routes env) ->
  Ssh.newRouterWith rs c hosts cmd = Ssh.newRouter env c hosts cmd.
Proof. apply newRouterWith_order. Qed.

Lemma X1_route_order_irrelevant_witness :
  Ssh.newRouterWith (rev (Ssh.routes Samples.env0)) Samples.conf0 Samples.hosts0
    ["/state/unfreeze"; "web"]
  = Ssh.newRouter Samples.env0 Samples.conf0 Samples.hosts0 ["/state/unfreeze"; "web"].
Proof.
  apply (X1_route_order_irrelevant Samples.env0 (rev (Ssh.routes Samples.env0))).
  apply Permutation_sym, Permutation_rev.
Defined.

(** X2: a handler sets one of the statuses 0, 400, 404, 406 and 500, or
    none at all; it sets none only for a rollback command with fewer than
    three tokens. *)
Theorem X2_exit_statuses (env : Ssh.Env) (c : Config) (hosts cmd : list string) :
  match Ssh.exited (snd (Ssh.newRouter env c hosts cmd)) with
  | Some z => In z [0; 400; 404; 406; 500]
  | None => exists tok, Go.HasPrefix tok "/state/rollback" = true
                        /\ (cmd = [tok] \/ exists name, cmd = [tok; name])
  end.
Proof. apply exit_status_codes. Qed.

(** X3: an empty command is answered 400 Bad Request, and a command whose
    first token has no route name as a prefix is answered 404 Not Found;
    in both cases the configuration is returned unchanged. *)
Theorem X3_unrouted_commands (env : Ssh.Env) (rs : list (string * Ssh.Handler))
  (c : Config) (hosts : list string) (tok : string) (rest : list string) :
  Permutation rs (Ssh.routes env) ->
  (forall q g, In (q, g) (Ssh.routes env) -> Go.HasPrefix tok q = false) ->
  Ssh.newRouterWith rs c hosts [] = (c, Ssh.mkReply "Bad Request" (Some 400))
  /\ Ssh.newRouterWith rs c hosts (tok :: rest) = (c, Ssh.mkReply "Not Found" (Some 404)).
Proof.
  intros Hperm Hnone. split; [reflexivity|].
  apply (dispatch_unknown env rs c hosts tok rest Hperm Hnone).
Qed.

Lemma X3_unrouted_commands_witness :
  Ssh.newRouterWith (Ssh.routes Samples.env0) Samples.conf0 Samples.hosts0 []
  = (Samples.conf0, Ssh.mkReply "Bad Request" (Some 400))
  /\ Ssh.newRouterWith (Ssh.routes Samples.env0) Samples.conf0 Samples.hosts0
       ["/state/free"; "web"]
     = (Samples.conf0, Ssh.mkReply "Not Found" (Some 404)).
Proof.
  apply (X3_unrouted_commands Samples.env0 (Ssh.routes Samples.env0) Samples.conf0
           Samples.hosts0 "/state/free" ["web"]).
  - apply Permutation_refl.
  - intros q g H. simpl in H.
    repeat match goal with
           | H : _ \/ _ |- _ => destruct H
           | H : False |- _ => contradiction
           | H : (_, _) = (_, _) |- _ => inversion H; clear H; subst
           end; reflexivity.
Defined.

Lemma addressed_forMe (hosts : list string) (name : string) (s : Service) :
  addressed hosts name s = true -> forMe s hosts = true /\ Service_ s = name.
Proof.
  unfold addressed. intro H. apply andb_prop in H as [Hf Hn].
  apply String.eqb_eq in Hn. auto.
Qed.

(** X4: whatever the command, the control port either returns the
    configuration unchanged or replaces the status of exactly one service,
    a service for this host, and then replies with status 0; the global
    section, the keys and all other services stay as they were. *)
Theorem X4_one_status_at_most (env : Ssh.Env) (c : Config) (hosts cmd : list string) :
  let c' := fst (Ssh.newRouter env c hosts cmd) in
  let r := snd (Ssh.newRouter env c hosts cmd) in
  c' = c
  \/ exists pre s post st i,
      Services c = pre ++ s :: post
      /\ c' = mkConfig (Global c) (pre ++ SetState (Ssh.Now env) s st i :: post) (ConfigKeys c)
      /\ forMe s hosts = true
      /\ Ssh.exited r = Some 0.
Proof.
  assert (Hset : forall name st i,
             match Ssh.setStateLoop env name st i hosts (Services c) with
             | Some l => exists pre s post,
                           Services c = pre ++ s :: post
                           /\ l = pre ++ SetState (Ssh.Now env) s st i :: post
                           /\ forMe s hosts = true
             | None => True
             end).
  { intros name st i.
    destruct (Ssh.setStateLoop env name st i hosts (Services c)) as [l|] eqn:E; [|exact I].
    apply setStateLoop_shape in E as (pre & s & post & H1 & H2 & Hs & _).
    exists pre, s, post. repeat split; try assumption.
    apply (addressed_forMe hosts name s Hs). }
  destruct cmd as [|tok rest]; [left; reflexivity|].
  unfold Ssh.newRouter, Ssh.newRouterWith, Ssh.routes, Ssh.route.
  destruct (Go.HasPrefix tok "/list/machine").
  { unfold Ssh.ListMachines. destruct (Ssh.Marshal env _) as [data err]. left; reflexivity. }
  destruct (Go.HasPrefix tok "/list/service").
  { unfold Ssh.ListService_.
    destruct (Ssh.listLoop env _ hosts (Services c)); [left; reflexivity|].
    destruct (Ssh.Marshal env _) as [data err]. left; reflexivity. }
  destruct (Go.HasPrefix tok "/state/freeze").
  { unfold Ssh.FreezeService, Ssh.freezeStateService.
    destruct rest as [|name rest]; [left; reflexivity|].
    specialize (Hset name StateFreeze ""%string).
    destruct (Ssh.setStateLoop env _ _ _ hosts (Services c)); [|left; reflexivity].
    destruct Hset as (pre & s & post & H1 & -> & Hf).
    right. exists pre, s, post, StateFreeze, ""%string. repeat split; assumption. }
  destruct (Go.HasPrefix tok "/state/unfreeze").
  { unfold Ssh.UnfreezeService, Ssh.freezeStateService.
    destruct rest as [|name rest]; [left; reflexivity|].
    specialize (Hset name StateOK ""%string).
    destruct (Ssh.setStateLoop env _ _ _ hosts (Services c)); [|left; reflexivity].
    destruct Hset as (pre & s & post & H1 & -> & Hf).
    right. exists pre, s, post, StateOK, ""%string. repeat split; assumption. }
  destruct (Go.HasPrefix tok "/state/rollback"); [|left; reflexivity].
  unfold Ssh.RollbackService.
  destruct rest as [|name [|hash rest]]; try (left; reflexivity).
  destruct (Go.DecodeString hash); [left; reflexivity|].
  specialize (Hset name StateRollback hash).
  destruct (Ssh.setStateLoop env _ _ _ hosts (Services c)); [|left; reflexivity].
  destruct Hset as (pre & s & post & H1 & -> & Hf).
  right. exists pre, s, post, StateRollback, hash. repeat split; assumption.
Qed.

Lemma listLoop_filter (env : Ssh.Env) (target : string) (hosts : list string)
  (l : list Service) :
  Ssh.listLoop env target hosts l
  = map (Ssh.listEntry env) (filter (listed hosts target) l).
Proof.
  induction l as [|s l IH]; [reflexivity|].
  cbn [Ssh.listLoop filter]. unfold listed at 1. rewrite IH.
  destruct (forMe s hosts); cbn [negb andb]; [|reflexivity].
  destruct (String.eqb target ""); cbn [orb]; [reflexivity|].
  destruct (String.eqb (Service_ s) target); reflexivity.
Qed.

(** X5: [/list/service] reports every service that is for this host, or,
    given a name, every service for this host that carries the name (all
    of them, not only the first), in the order of the configuration;
    services for other hosts never appear; with nothing to report the
    answer is 404 Not Found. *)
Theorem X5_list_service (env : Ssh.Env) (c : Config) (hosts : list string)
  (tok : string) (rest : list string) :
  Go.HasPrefix tok "/list/service" = true ->
  Ssh.newRouter env c hosts (tok :: rest)
  = match map (Ssh.listEntry env) (filter (listed hosts (hd ""%string rest)) (Services c)) with
    | [] => (c, Ssh.mkReply "Not Found" (Some 404))
    | ls => (c, Ssh.writeAndExit (fst (Ssh.Marshal env (Ssh.ListServicesPayload ls)))
                  (snd (Ssh.Marshal env (Ssh.ListServicesPayload ls))))
    end.
Proof.
  intro Hp. unfold Ssh.newRouter.
  rewrite (dispatch env _ c hosts tok rest "/list/service" (Ssh.ListService_ env)
             (Permutation_refl _)); [|simpl; tauto|assumption].
  unfold Ssh.ListService_.
  replace (match tok :: rest with _ :: t :: _ => t | _ => ""%string end)
    with (hd ""%string rest) by (destruct rest; reflexivity).
  rewrite listLoop_filter.
  destruct (map _ _) as [|e ls]; [reflexivity|].
  destruct (Ssh.Marshal env _) as [data err]. reflexivity.
Qed.

Lemma X5_list_service_witness :
  Ssh.newRouter Samples.env0 Samples.conf1 Samples.hosts0 ["/list/services"]
  = (Samples.conf1, Ssh.mkReply "{}" (Some 0))
  /\ Ssh.newRouter Samples.env0 Samples.conf1 Samples.hosts0 ["/list/service"; "db"]
     = (Samples.conf1, Ssh.mkReply "Not Found" (Some 404)).
Proof.
  split.
  - rewrite (X5_list_service Samples.env0 Samples.conf1 Samples.hosts0 "/list/services" []
               eq_refl). reflexivity.
  - rewrite (X5_list_service Samples.env0 Samples.conf1 Samples.hosts0 "/list/service" ["db"%string]
               eq_refl). reflexivity.
Defined.

(** X6: a rollback command with a decodable hash puts ROLLBACK, with the
    hash as info, on the first service that is for this host and carries
    the name, and on no other, and replies OK with status 0; when no
    service for this host carries the name the reply is 404 Not Found and
    the configuration is unchanged. *)
Theorem X6_rollback_sets_state (env : Ssh.Env) (c : Config) (hosts : list string)
  (tok name hash : string) (rest : list string) :
  Go.HasPrefix tok "/state/rollback" = true ->
  evenHex hash = true ->
  (forall pre s post,
      Services c = pre ++ s :: post ->
      (forall x, In x pre -> addressed hosts name x = false) ->
      addressed hosts name s = true ->
      Ssh.newRouter env c hosts (tok :: name :: hash :: rest)
      = (mkConfig (Global c) (pre ++ SetState (Ssh.Now env) s StateRollback hash :: post)
           (ConfigKeys c),
         Ssh.mkReply "OK" (Some 0)))
  /\ ((forall x, In x (Services c) -> addressed hosts name x = false) ->
      Ssh.newRouter env c hosts (tok :: name :: hash :: rest)
      = (c, Ssh.mkReply "Not Found" (Some 404))).
Proof.
  intros Hp Hhex.
  assert (Hrun : Ssh.newRouter env c hosts (tok :: name :: hash :: rest)
                 = Ssh.RollbackService env c (tok :: name :: hash :: rest) hosts).
  { unfold Ssh.newRouter.
    apply (dispatch env _ c hosts tok (name :: hash :: rest) "/state/rollback"
             (Ssh.RollbackService env) (Permutation_refl _)); [simpl; tauto|assumption]. }
  rewrite Hrun. unfold Ssh.RollbackService.
  destruct (proj2 (Decode_accepts_iff hash) Hhex) as [bs ->]. split.
  - intros pre s post Hc Hpre Hs.
    rewrite Hc, (setStateLoop_found env name StateRollback hash hosts pre s post Hpre Hs).
    reflexivity.
  - intro Hnone. rewrite (setStateLoop_none env name StateRollback hash hosts _ Hnone).
    reflexivity.
Qed.

Lemma X6_rollback_sets_state_witness :
  Ssh.newRouter Samples.env0 Samples.conf0 Samples.hosts0
    ["/state/rollback"; "web"; "0123456789abcdef0123456789abcdef01234567"]
  = (mkConfig Samples.global0
       [SetState 1000 Samples.web StateRollback "0123456789abcdef0123456789abcdef01234567";
        Samples.db] (mkKeys []),
     Ssh.mkReply "OK" (Some 0)).
Proof.
  apply (proj1 (X6_rollback_sets_state Samples.env0 Samples.conf0 Samples.hosts0
                  "/state/rollback" "web" "0123456789abcdef0123456789abcdef01234567" []
                  eq_refl eq_refl) [] Samples.web [Samples.db]).
  - reflexivity.
  - intros x [].
  - reflexivity.
Defined.

(** X7: a rollback command with three or more tokens is answered 406
    exactly when its hash is not a hexadecimal string of even length. *)
Theorem X7_rollback_406_iff (env : Ssh.Env) (c : Config) (hosts : list string)
  (tok name hash : string) (rest : list string) :
  Go.HasPrefix tok "/state/rollback" = true ->
  (Ssh.exited (snd (Ssh.newRouter env c hosts (tok :: name :: hash :: rest))) = Some 406
   <-> evenHex hash = false).
Proof.
  intro Hp. split.
  - intro H. destruct (evenHex hash) eqn:E; [|reflexivity]. exfalso.
    assert (Hrun : Ssh.newRouter env c hosts (tok :: name :: hash :: rest)
                   = Ssh.RollbackService env c (tok :: name :: hash :: rest) hosts).
    { unfold Ssh.newRouter.
      apply (dispatch env _ c hosts tok (name :: hash :: rest) "/state/rollback"
               (Ssh.RollbackService env) (Permutation_refl _)); [simpl; tauto|assumption]. }
    rewrite Hrun in H. unfold Ssh.RollbackService in H.
    destruct (proj2 (Decode_accepts_iff hash) E) as [bs Hd]. rewrite Hd in H.
    destruct (Ssh.setStateLoop env name StateRollback hash hosts (Services c));
      simpl in H; discriminate.
  - intro E. unfold Ssh.newRouter.
    rewrite (dispatch env _ c hosts tok (name :: hash :: rest) "/state/rollback"
               (Ssh.RollbackService env) (Permutation_refl _)); [|simpl; tauto|assumption].
    unfold Ssh.RollbackService.
    destruct (Decode_rejects hash E) as [e ->]. reflexivity.
Qed.

Lemma X7_rollback_406_iff_witness :
  Ssh.exited (snd (Ssh.newRouter Samples.env0 Samples.conf0 Samples.hosts0
                     ["/state/rollback"; "web"; "abc"])) = Some 406.
Proof.
  apply (proj2 (X7_rollback_406_iff Samples.env0 Samples.conf0 Samples.hosts0
                  "/state/rollback" "web" "abc" [] eq_refl)).
  reflexivity.
Defined.

Lemma setStateLoop_override (env1 env2 : Ssh.Env) (name : string) (st1 st2 : State)
  (i1 i2 : string) (hosts : list string) (l l1 : list Service) :
  Ssh.setStateLoop env1 name st1 i1 hosts l = Some l1 ->
  Ssh.setStateLoop env2 name st2 i2 hosts l1 = Ssh.setStateLoop env2 name st2 i2 hosts l
  /\ exists l2, Ssh.setStateLoop env2 name st2 i2 hosts l = Some l2.
Proof.
  intro H. apply setStateLoop_shape in H as (pre & s & post & -> & -> & Hs & Hpre).
  rewrite (setStateLoop_found env2 name st2 i2 hosts pre s post Hpre Hs).
  rewrite (setStateLoop_found env2 name st2 i2 hosts pre
             (SetState (Ssh.Now env1) s st1 i1) post Hpre Hs).
  split; [reflexivity|eauto].
Qed.

(** X8: of two freeze or unfreeze commands for the same name the later
    one wins: sending the second after the first leaves the configuration
    that the second alone would have left, with the same reply.  In
    particular, repeating a command changes nothing but the change time. *)
Theorem X8_later_command_wins (env1 env2 : Ssh.Env) (c : Config) (hosts : list string)
  (tok1 tok2 name : string) (rest1 rest2 : list string) (st1 st2 : State) :
  freezeCommand tok1 st1 ->
  freezeCommand tok2 st2 ->
  Ssh.newRouter env2 (fst (Ssh.newRouter env1 c hosts (tok1 :: name :: rest1))) hosts
    (tok2 :: name :: rest2)
  = Ssh.newRouter env2 c hosts (tok2 :: name :: rest2).
Proof.
  intros H1 H2.
  assert (Hrun : forall env tok st c0 rest,
             freezeCommand tok st ->
             Ssh.newRouter env c0 hosts (tok :: name :: rest)
             = Ssh.freezeStateService env st c0 (tok :: name :: rest) hosts).
  { intros env tok st c0 rest [[-> ->]|[-> ->]]; reflexivity. }
  rewrite (Hrun env1 tok1 st1 c rest1 H1), !(Hrun env2 tok2 st2 _ rest2 H2).
  unfold Ssh.freezeStateService.
  destruct (Ssh.setStateLoop env1 name st1 "" hosts (Services c)) as [l1|] eqn:E1;
    [|reflexivity].
  cbn [fst Ssh.withServices Services Global ConfigKeys].
  destruct (setStateLoop_override env1 env2 name st1 st2 ""%string ""%string hosts
              (Services c) l1 E1) as [-> [l2 ->]].
  reflexivity.
Qed.

Lemma X8_later_command_wins_witness :
  Ssh.newRouter Samples.env0
    (fst (Ssh.newRouter Samples.env0 Samples.conf0 Samples.hosts0 ["/state/freeze"; "web"]))
    Samples.hosts0 ["/state/unfreeze"; "web"]
  = Ssh.newRouter Samples.env0 Samples.conf0 Samples.hosts0 ["/state/unfreeze"; "web"].
Proof.
  apply (X8_later_command_wins Samples.env0 Samples.env0 Samples.conf0 Samples.hosts0
           "/state/freeze" "/state/unfreeze" "web" [] [] StateFreeze StateOK).
  - left; split; reflexivity.
  - right; split; reflexivity.
Defined.

(** X25: [/list/machine] reports one entry for every configured service,
    those for other hosts included, each with the OS host name as the
    actual host; the reply is the encoder's output with status 0, or, when
    the encoder fails, the text Internal Server Error with status 500 and
    none of the data; the configuration is unchanged. *)
Theorem X25_list_machines (env : Ssh.Env) (c : Config) (hosts : list string)
  (tok : string) (rest : list string) :
  Go.HasPrefix tok "/list/machine" = true ->
  let lm := map (fun s => Ssh.mkListMachine (Machine s) (Ssh.Hostname env)) (Services c) in
  List.length lm = List.length (Services c)
  /\ Ssh.newRouter env c hosts (tok :: rest)
     = (c, match snd (Ssh.Marshal env (Ssh.ListMachinesPayload lm)) with
           | Some _ => Ssh.mkReply "Internal Server Error" (Some 500)
           | None => Ssh.mkReply (fst (Ssh.Marshal env (Ssh.ListMachinesPayload lm))) (Some 0)
           end).
Proof.
  intros Hp lm. split; [apply length_map|].
  unfold Ssh.newRouter.
  rewrite (dispatch env _ c hosts tok rest "/list/machine" (Ssh.ListMachines env)
             (Permutation_refl _)); [|simpl; tauto|assumption].
  unfold Ssh.ListMachines. fold lm.
  destruct (Ssh.Marshal env (Ssh.ListMachinesPayload lm)) as [data [err|]]; reflexivity.
Qed.

Lemma X25_list_machines_witness :
  Ssh.newRouter Samples.env0 Samples.conf1 [] ["/list/machines"]
  = (Samples.conf1, Ssh.mkReply "{}" (Some 0)).
Proof.
  rewrite (proj2 (X25_list_machines Samples.env0 Samples.conf1 [] "/list/machines" []
                    eq_refl)).
  reflexivity.
Defined.

(** * Further properties of start-up *)

Lemma serve_inr (w : Main.World) (addr : string) (t : list Main.Event) (u : unit) :
  Main.serve w addr = (t, inr u) ->
  Main.Listen w addr = None /\ t = [Main.CallListen addr].
Proof.
  unfold Main.serve, Main.bind, Main.emit, Main.ret, Main.fail.
  destruct (Main.Listen w addr); [discriminate|].
  simpl. intro H; inversion H. auto.
Qed.

Lemma loadConfig_inr_any (w : Main.World) (src : string) (self : option Service)
  (t : list Main.Event) (c' : Config) :
  Main.loadConfig w src self = (t, inr c') ->
  exists doc c,
    Main.ReadFile w src = inr doc /\ Main.parseConfig w doc = inr c
    /\ Main.Valid w c = None
    /\ c' = match self with
            | Some s => mkConfig (Global c) (Services c ++ [s]) (ConfigKeys c)
            | None => c
            end
    /\ t = [Main.CallReadFile src; Main.CallParseConfig doc; Main.CallValid].
Proof.
  unfold Main.loadConfig, Main.bind, Main.emit, Main.ret, Main.fail.
  destruct (Main.ReadFile w src) as [e|doc] eqn:Hread; [discriminate|].
  destruct (Main.parseConfig w doc) as [e|c] eqn:Hparse; [discriminate|].
  destruct (Main.Valid w c) eqn:Hvalid; [discriminate|].
  destruct self; simpl; intro H; injection H as <- <-; exists doc, c;
    repeat split; assumption.
Qed.

Lemma loadKeys_inr (w : Main.World) (exec : Main.ExecContext) (self : option Service)
  (paths : list string) :
  forall t allowed,
    Main.loadKeys w exec self paths = (t, inr allowed) ->
    Forall2 (fun p a => exists data,
                 Main.ReadFile w (keyPath w exec self p) = inr data
                 /\ Main.ParseAuthorizedKey w data = inr a) paths allowed.
Proof.
  induction paths as [|p paths IH]; intros t allowed H.
  - inversion H. constructor.
  - cbn [Main.loadKeys] in H. fold (keyPath w exec self p) in H.
    apply bind_inr in H as (t1 & [] & t2 & _ & H & ->).
    apply bind_inr in H as (t3 & [] & t4 & _ & H & ->).
    destruct (Main.ReadFile w (keyPath w exec self p)) as [e|data] eqn:Hread;
      [discriminate|].
    apply bind_inr in H as (t5 & [] & t6 & _ & H & ->).
    destruct (Main.ParseAuthorizedKey w data) as [e|a] eqn:Hparse; [discriminate|].
    apply bind_inr in H as (t7 & al & t8 & Hrest & H & ->).
    inversion H; subst. constructor; [eauto|].
    apply (IH t7 al Hrest).
Qed.

(** What holds when start-up has gone through. *)
Lemma startup_inr (w : Main.World) (exec : Main.ExecContext) (t : list Main.Event)
  (rdy : Main.Ready) :
  Main.startup w exec = (t, inr rdy) ->
  Main.Geteuid w = 0
  /\ Main.ConfigSource exec <> ""%string
  /\ Main.self rdy = Main.selfService w (Main.ExecUpstream exec) (Main.ExecBranch exec)
                       (Main.ExecMount exec) (Main.Dir exec)
  /\ exists t1 t2 t3,
      Main.bootstrap w exec (Main.self rdy) = (t1, inr (Main.source rdy))
      /\ Main.loadConfig w (Main.source rdy) (Main.self rdy) = (t2, inr (Main.cfg rdy))
      /\ Main.loadKeys w exec (Main.self rdy) (Path (ConfigKeys (Main.cfg rdy)))
         = (t3, inr (Main.allowed rdy))
      /\ Main.Listen w (Main.SAddr exec) = None
      /\ Main.Listen w (Main.MAddr exec) = None
      /\ t = Main.debugLog exec ++ t1 ++ t2 ++ t3
             ++ [Main.CallListen (Main.SAddr exec); Main.CallListen (Main.MAddr exec);
                 Main.InfoLaunched (Main.SAddr exec) (Main.MAddr exec) (Main.Hosts exec)
                   (List.length (Path (ConfigKeys (Main.cfg rdy))))].
Proof.
  unfold Main.startup.
  destruct (Main.Geteuid w =? 0) eqn:Hroot; [|discriminate].
  cbn [negb]. intro H.
  apply bind_inr in H as (td & [] & t0 & Hd & H & ->).
  injection Hd as <-.
  destruct (String.eqb (Main.ConfigSource exec) "") eqn:Hcfg; [discriminate|].
  apply bind_inr in H as (t1 & src & t2 & Hboot & H & ->).
  apply bind_inr in H as (t3 & c' & t4 & Hload & H & ->).
  apply bind_inr in H as (t5 & al & t6 & Hkeys & H & ->).
  apply bind_inr in H as (t7 & u1 & t8 & Hs1 & H & ->).
  apply bind_inr in H as (t9 & u2 & t10 & Hs2 & H & ->).
  apply bind_inr in H as (t11 & [] & t12 & He & H & ->).
  inversion H; subst rdy t12; clear H. inversion He; subst t11; clear He.
  apply serve_inr in Hs1 as [Hl1 ->]. apply serve_inr in Hs2 as [Hl2 ->].
  cbn [Main.self Main.source Main.cfg Main.allowed].
  split; [apply Z.eqb_eq; assumption|].
  split; [apply String.eqb_neq; assumption|].
  split; [reflexivity|].
  exists t1, t3, t5. repeat split; assumption.
Qed.

(** X9: [run] checks the effective uid first and the config flag second:
    without root it returns [ErrNotRoot] before doing anything at all; as
    root without -c it returns [ErrNoConfig], and the only thing done
    before that is switching debug logging on when -d was given: no file
    is read, no repository or listener is touched and nothing is
    started. *)
Theorem X9_privilege_then_config (w : Main.World) (exec : Main.ExecContext) :
  (Main.Geteuid w <> 0 ->
   Main.run w exec = Main.mkResult (Main.Returned (Some Main.ErrNotRoot)) [] [] false [])
  /\ (Main.Geteuid w = 0 -> Main.ConfigSource exec = ""%string ->
      Main.run w exec
      = Main.mkResult (Main.Returned (Some Main.ErrNoConfig)) [] [] false
          (if Main.Debug exec then [Main.DebugSet] else [])).
Proof.
  unfold Main.run, Main.startup. split.
  - intro H. apply Z.eqb_neq in H. rewrite H. reflexivity.
  - intros -> ->. unfold Main.bind, Main.setDebug, Main.debugLog, Main.fail.
    cbn. rewrite app_nil_r. reflexivity.
Qed.

Lemma X9_privilege_then_config_witness :
  Main.run Samples.worldUser
    (Main.parseFlags Samples.worldUser
       (Main.mkFlags [] "" ":2222" ":9222" true false "" "gitopper" "main" "" false))
  = Main.mkResult (Main.Returned (Some Main.ErrNotRoot)) [] [] false []
  /\ Main.run Samples.world0
       (Main.parseFlags Samples.world0
          (Main.mkFlags [] "" ":2222" ":9222" true false "" "gitopper" "main" "" false))
     = Main.mkResult (Main.Returned (Some Main.ErrNoConfig)) [] [] false [Main.DebugSet].
Proof.
  split.
  - apply (proj1 (X9_privilege_then_config Samples.worldUser
                    (Main.parseFlags Samples.worldUser
                       (Main.mkFlags [] "" ":2222" ":9222" true false "" "gitopper" "main" ""
                          false)))).
    discriminate.
  - apply (proj2 (X9_privilege_then_config Samples.world0
                    (Main.parseFlags Samples.world0
                       (Main.mkFlags [] "" ":2222" ":9222" true false "" "gitopper" "main" ""
                          false)))); reflexivity.
Defined.

(** X10: when the Checkout of the bootstrap service fails, or its Pull
    with -P, [run] returns a [RepoPullError] naming the machine and the
    upstream of that service; the config file is never read, no listener
    is opened and no service is touched, and the exit status is 1.  The
    log holds the debug switch under -d, the bootstrap line and the calls
    up to the failing one. *)
Theorem X10_bootstrap_failure (w : Main.World) (exec : Main.ExecContext)
  (self : Service) (err : string) :
  Main.Geteuid w = 0 ->
  Main.ConfigSource exec <> ""%string ->
  Main.selfService w (Main.ExecUpstream exec) (Main.ExecBranch exec) (Main.ExecMount exec)
    (Main.Dir exec) = Some self ->
  let boot := Main.InfoBootstrapping (Main.ExecUpstream exec) (Service_ self) (Machine self) in
  let failed := Main.Returned (Some (Main.RepoPullError (Machine self) (Upstream self) err)) in
  Main.exitStatus failed = Some 1
  /\ (Main.BootCheckout w self = Some err ->
      Main.run w exec
      = Main.mkResult failed [] [] false
          (Main.debugLog exec ++ [boot; Main.CallCheckout self]))
  /\ (Main.BootCheckout w self = None -> Main.Pull exec = true ->
      Main.BootPull w self = Some err ->
      Main.run w exec
      = Main.mkResult failed [] [] false
          (Main.debugLog exec ++ [boot; Main.CallCheckout self; Main.CallPull self])).
Proof.
  intros Hroot Hcfg Hself boot failed. apply String.eqb_neq in Hcfg.
  split; [reflexivity|].
  unfold Main.run, Main.startup. rewrite Hroot, Hcfg, Hself. cbn [Z.eqb negb].
  unfold Main.bootstrap, Main.bind, Main.setDebug, Main.emit, Main.fail, Main.ret.
  split.
  - intros ->. reflexivity.
  - intros -> -> ->. reflexivity.
Qed.

Lemma X10_bootstrap_failure_witness :
  exists self,
    Main.outcome (Main.run Samples.worldNoBoot
                    (Main.parseFlags Samples.worldNoBoot Samples.flagsBoot))
    = Main.Returned (Some (Main.RepoPullError (Machine self) (Upstream self) "exit status 128"))
    /\ Main.main Samples.worldNoBoot Samples.flagsBoot = Some 1.
Proof.
  eexists. split.
  - rewrite (proj1 (proj2 (X10_bootstrap_failure Samples.worldNoBoot
                             (Main.parseFlags Samples.worldNoBoot Samples.flagsBoot)
                             _ "exit status 128"%string eq_refl
                             ltac:(discriminate) eq_refl)) eq_refl).
    reflexivity.
  - reflexivity.
Defined.

Lemma selfService_none (w : Main.World) (branch mount dir : string) :
  Main.selfService w "" branch mount dir = None.
Proof. reflexivity. Qed.

(** X11: without a bootstrap upstream nothing is re-targeted or appended:
    the config is read from the path given with -c, the services are those
    of the parsed config, and key paths are used as they are written. *)
Theorem X11_no_bootstrap (w : Main.World) (exec : Main.ExecContext)
  (t : list Main.Event) (rdy : Main.Ready) :
  Main.ExecUpstream exec = ""%string ->
  Main.startup w exec = (t, inr rdy) ->
  Main.self rdy = None
  /\ Main.source rdy = Main.ConfigSource exec
  /\ (forall p, keyPath w exec (Main.self rdy) p = p)
  /\ exists doc tail,
      Main.ReadFile w (Main.ConfigSource exec) = inr doc
      /\ Main.parseConfig w doc = inr (Main.cfg rdy)
      /\ t = Main.debugLog exec
             ++ Main.CallReadFile (Main.ConfigSource exec) :: Main.CallParseConfig doc
                  :: Main.CallValid :: tail.
Proof.
  intros Hup H.
  apply startup_inr in H as (_ & _ & Hself & t1 & t2 & t3 & Hboot & Hload & _ & _ & _ & ->).
  rewrite Hup, selfService_none in Hself. rewrite Hself in *.
  inversion Hboot; subst t1.
  apply loadConfig_inr_any in Hload as (doc & c & Hread & Hparse & _ & Hc & ->).
  rewrite <- H1 in *.
  split; [reflexivity|]. split; [reflexivity|]. split; [reflexivity|].
  exists doc. eexists. split; [exact Hread|]. split; [congruence|reflexivity].
Qed.

Lemma X11_no_bootstrap_witness :
  exists doc tail,
    Main.ReadFile Samples.world0 "/etc/gitopper.toml" = inr doc
    /\ fst (Main.startup Samples.world0 (Main.parseFlags Samples.world0 Samples.flags0))
       = Main.CallReadFile "/etc/gitopper.toml" :: Main.CallParseConfig doc
           :: Main.CallValid :: tail.
Proof.
  destruct (X11_no_bootstrap Samples.world0 (Main.parseFlags Samples.world0 Samples.flags0)
              (fst (Main.startup Samples.world0
                      (Main.parseFlags Samples.world0 Samples.flags0)))
              (Main.mkReady Samples.conf1 "/etc/gitopper.toml" None
                 ["/etc/gitopper/ops.pub"%string])
              eq_refl eq_refl) as (_ & _ & _ & doc & tail & Hread & _ & Ht).
  exists doc, tail. split; assumption.
Defined.

(** X12: without bootstrap, a config that cannot be read, parsed or
    validated makes [run] return an error whose text starts with reading
    config, parsing config or validating config; nothing after the failing
    step is called, no listener is opened and no service is touched. *)
Theorem X12_config_errors (w : Main.World) (exec : Main.ExecContext) :
  Main.Geteuid w = 0 ->
  Main.ConfigSource exec <> ""%string ->
  Main.ExecUpstream exec = ""%string ->
  let src := Main.ConfigSource exec in
  let failed msg t := Main.mkResult (Main.Returned (Some (Main.Errorf msg))) [] [] false t in
  (forall err,
      Main.ReadFile w src = inl err ->
      Main.run w exec
      = failed ("reading config: " ++ err)%string
          (Main.debugLog exec ++ [Main.CallReadFile src]))
  /\ (forall doc err,
         Main.ReadFile w src = inr doc -> Main.parseConfig w doc = inl err ->
         Main.run w exec
         = failed ("parsing config: " ++ err)%string
             (Main.debugLog exec ++ [Main.CallReadFile src; Main.CallParseConfig doc]))
  /\ (forall doc c err,
         Main.ReadFile w src = inr doc -> Main.parseConfig w doc = inr c ->
         Main.Valid w c = Some err ->
         Main.run w exec
         = failed ("validating config: " ++ err)%string
             (Main.debugLog exec
                ++ [Main.CallReadFile src; Main.CallParseConfig doc; Main.CallValid])).
Proof.
  intros Hroot Hcfg Hup src failed. apply String.eqb_neq in Hcfg.
  unfold Main.run, Main.startup. rewrite Hroot, Hcfg, Hup, selfService_none.
  cbn [Z.eqb negb].
  unfold Main.bootstrap, Main.loadConfig, Main.bind, Main.setDebug, Main.emit, Main.fail,
    Main.ret.
  fold src. repeat split.
  - intros err ->. reflexivity.
  - intros doc err -> ->. reflexivity.
  - intros doc c err -> -> ->. reflexivity.
Qed.

Lemma X12_config_errors_witness :
  Main.run Samples.worldNoConfig (Main.parseFlags Samples.worldNoConfig Samples.flags0)
  = Main.mkResult
      (Main.Returned (Some (Main.Errorf "reading config: no such file or directory")))
      [] [] false [Main.CallReadFile "/etc/gitopper.toml"].
Proof.
  apply (proj1 (X12_config_errors Samples.worldNoConfig
                  (Main.parseFlags Samples.worldNoConfig Samples.flags0)
                  eq_refl ltac:(discriminate) eq_refl)
           "no such file or directory"%string).
  reflexivity.
Defined.

(** X13: when the keys are loaded, there is exactly one key per
    configured path, in the order of the configuration, and each is what
    [ssh.ParseAuthorizedKey] made of the file at that path, a relative
    path being taken inside the bootstrap tree when there is one. *)
Theorem X13_keys_loaded (w : Main.World) (exec : Main.ExecContext) (self : option Service)
  (paths : list string) (t : list Main.Event) (allowed : list string) :
  Main.loadKeys w exec self paths = (t, inr allowed) ->
  List.length allowed = List.length paths
  /\ Forall2 (fun p a => exists data,
                  Main.ReadFile w (keyPath w exec self p) = inr data
                  /\ Main.ParseAuthorizedKey w data = inr a) paths allowed.
Proof.
  intro H. apply loadKeys_inr in H. split; [|exact H].
  symmetry. apply (Forall2_length H).
Qed.

Lemma X13_keys_loaded_witness :
  Forall2 (fun p a => exists data,
               Main.ReadFile Samples.world0
                 (keyPath Samples.world0 (Main.parseFlags Samples.world0 Samples.flagsBoot)
                    (Some Samples.web) p) = inr data
               /\ Main.ParseAuthorizedKey Samples.world0 data = inr a)
    ["ops.pub"%string; "/etc/ssh/admin.pub"%string]
    ["/srv/web/web/gitopper/ops.pub"%string; "/etc/ssh/admin.pub"%string].
Proof.
  apply (proj2 (X13_keys_loaded Samples.world0
                  (Main.parseFlags Samples.world0 Samples.flagsBoot) (Some Samples.web)
                  ["ops.pub"%string; "/etc/ssh/admin.pub"%string]
                  (fst (Main.loadKeys Samples.world0
                          (Main.parseFlags Samples.world0 Samples.flagsBoot)
                          (Some Samples.web)
                          ["ops.pub"%string; "/etc/ssh/admin.pub"%string]))
                  ["/srv/web/web/gitopper/ops.pub"%string; "/etc/ssh/admin.pub"%string]
                  eq_refl)).
Defined.

Lemma PublicKeyAuth_exists (KeysEqual : string -> string -> bool) (allowed : list string)
  (key : string) :
  PublicKeyAuth KeysEqual allowed key = true
  <-> exists a, In a allowed /\ KeysEqual a key = true.
Proof.
  induction allowed as [|a l IH]; simpl.
  - split; [discriminate|intros (a & [] & _)].
  - destruct (KeysEqual a key) eqn:E.
    + split; [intros _; exists a; auto|reflexivity].
    + rewrite IH. split.
      * intros (b & Hb & Hk). exists b; auto.
      * intros (b & [<-|Hb] & Hk); [congruence|exists b; auto].
Qed.

(** X14: once start-up has gone through, the SSH server accepts a public
    key exactly when it equals the key parsed from one of the files listed
    under keys in the config; with no such file it accepts none. *)
Theorem X14_authorized_keys (w : Main.World) (exec : Main.ExecContext)
  (t : list Main.Event) (rdy : Main.Ready) (KeysEqual : string -> string -> bool)
  (key : string) :
  Main.startup w exec = (t, inr rdy) ->
  (PublicKeyAuth KeysEqual (Main.allowed rdy) key = true
   <-> exists p data a,
       In p (Path (ConfigKeys (Main.cfg rdy)))
       /\ Main.ReadFile w (keyPath w exec (Main.self rdy) p) = inr data
       /\ Main.ParseAuthorizedKey w data = inr a
       /\ KeysEqual a key = true)
  /\ (Path (ConfigKeys (Main.cfg rdy)) = [] ->
      PublicKeyAuth KeysEqual (Main.allowed rdy) key = false).
Proof.
  intro H.
  apply startup_inr in H as (_ & _ & _ & t1 & t2 & t3 & _ & _ & Hkeys & _).
  apply loadKeys_inr in Hkeys.
  split.
  - rewrite PublicKeyAuth_exists. split.
    + intros (a & Ha & Hk).
      induction Hkeys as [|p a' ps al (data & Hr & Hp) _ IH]; [contradiction|].
      destruct Ha as [->|Ha].
      * exists p, data, a. repeat split; auto. left; reflexivity.
      * destruct (IH Ha) as (p' & data' & a'' & Hin & H1 & H2 & H3).
        exists p', data', a''. repeat split; auto. right; assumption.
    + intros (p & data & a & Hin & Hr & Hp & Hk).
      induction Hkeys as [|p' a' ps al (data' & Hr' & Hp') _ IH]; [contradiction|].
      destruct Hin as [->|Hin].
      * exists a'. split; [left; reflexivity|]. congruence.
      * destruct (IH Hin) as (b & Hb & Hkb). exists b. split; [right|]; assumption.
  - intro Hnil. rewrite Hnil in Hkeys. inversion Hkeys. reflexivity.
Qed.

Lemma X14_authorized_keys_witness :
  PublicKeyAuth String.eqb ["/etc/gitopper/ops.pub"%string] "/etc/gitopper/ops.pub" = true.
Proof.
  apply (proj2 (proj1 (X14_authorized_keys Samples.world0
                  (Main.parseFlags Samples.world0 Samples.flags0)
                  (fst (Main.startup Samples.world0
                          (Main.parseFlags Samples.world0 Samples.flags0)))
                  (Main.mkReady Samples.conf1 "/etc/gitopper.toml" None
                     ["/etc/gitopper/ops.pub"%string])
                  String.eqb "/etc/gitopper/ops.pub" eq_refl))).
  exists "/etc/gitopper/ops.pub"%string, "/etc/gitopper/ops.pub"%string,
    "/etc/gitopper/ops.pub"%string.
  split; [left; reflexivity|]. repeat split.
Defined.

(** X15: the service loop is reached only as root, with a config path,
    after the config has passed [Valid], and with the SSH listener and then
    the metrics listener bound; [Valid] sees the parsed config, before the
    bootstrap service is appended to it. *)
Theorem X15_loop_preconditions (w : Main.World) (exec : Main.ExecContext)
  (t : list Main.Event) (rdy : Main.Ready) :
  Main.startup w exec = (t, inr rdy) ->
  Main.Geteuid w = 0
  /\ Main.ConfigSource exec <> ""%string
  /\ Main.Listen w (Main.SAddr exec) = None
  /\ Main.Listen w (Main.MAddr exec) = None
  /\ (exists c,
        Main.Valid w c = None
        /\ Services (Main.cfg rdy)
           = Services c ++ match Main.self rdy with Some s => [s] | None => [] end
        /\ Global (Main.cfg rdy) = Global c
        /\ ConfigKeys (Main.cfg rdy) = ConfigKeys c)
  /\ exists before,
      t = before ++ [Main.CallListen (Main.SAddr exec); Main.CallListen (Main.MAddr exec);
                     Main.InfoLaunched (Main.SAddr exec) (Main.MAddr exec) (Main.Hosts exec)
                       (List.length (Path (ConfigKeys (Main.cfg rdy))))].
Proof.
  intro H.
  apply startup_inr in H
    as (Hroot & Hcfg & _ & t1 & t2 & t3 & _ & Hload & _ & Hl1 & Hl2 & ->).
  apply loadConfig_inr_any in Hload as (doc & c & _ & _ & Hvalid & Hc & _).
  repeat split; try assumption.
  - exists c. rewrite Hc. destruct (Main.self rdy); simpl; rewrite ?app_nil_r; auto.
  - exists (Main.debugLog exec ++ t1 ++ t2 ++ t3). rewrite <- !app_assoc. reflexivity.
Qed.

Lemma X15_loop_preconditions_witness :
  Main.Listen Samples.world0 ":2222" = None /\ Main.Listen Samples.world0 ":9222" = None.
Proof.
  destruct (X15_loop_preconditions Samples.world0
              (Main.parseFlags Samples.world0 Samples.flags0)
              (fst (Main.startup Samples.world0
                      (Main.parseFlags Samples.world0 Samples.flags0)))
              (Main.mkReady Samples.conf1 "/etc/gitopper.toml" None
                 ["/etc/gitopper/ops.pub"%string])
              eq_refl) as (_ & _ & H1 & H2 & _).
  split; assumption.
Defined.

(** * Further properties of the service loop *)

Lemma spawned_counted (w : Main.World) (hosts : list string) (g : Service) (i : nat)
  (serv : Service) :
  Main.spawned (Main.startService w hosts g i serv) = true ->
  Main.counted (Main.startService w hosts g i serv) = true.
Proof. intro H. rewrite counted_forMe. apply spawned_iff in H. apply H. Qed.

(** X16: [servCnt] is the number of configured services that are for this
    host, whether or not their start-up succeeded, and the number of
    workers started never exceeds it. *)
Theorem X16_servCnt (w : Main.World) (hosts : list string) (g : Service) (i : nat)
  (l : list Service) :
  Main.servCnt (Main.startServices w hosts g i l)
  = List.length (filter (fun s => forMe s hosts) l)
  /\ (List.length (Main.workers (Main.startServices w hosts g i l))
      <= Main.servCnt (Main.startServices w hosts g i l))%nat.
Proof.
  revert i. induction l as [|serv l IH]; intro i; [split; [reflexivity|apply Nat.le_refl]|].
  destruct (IH (S i)) as [IH1 IH2].
  cbn [Main.startServices Main.servCnt Main.workers filter].
  rewrite length_app, IH1. split.
  - rewrite counted_forMe. destruct (forMe serv hosts); reflexivity.
  - rewrite <- IH1.
    destruct (Main.spawned (Main.startService w hosts g i serv)) eqn:E.
    + rewrite (spawned_counted w hosts g i serv E). simpl. apply le_n_S, IH2.
    + simpl. apply Nat.le_trans with (1 := IH2). apply Nat.le_add_l.
Qed.

(** X17: no service gets two workers: the indices of the workers started
    are pairwise distinct positions of the configuration. *)
Theorem X17_one_worker_per_service (w : Main.World) (hosts : list string) (g : Service)
  (i : nat) (l : list Service) :
  NoDup (map fst (Main.workers (Main.startServices w hosts g i l)))
  /\ forall j, In j (map fst (Main.workers (Main.startServices w hosts g i l))) ->
               (i <= j < i + List.length l)%nat.
Proof.
  revert i. induction l as [|serv l IH]; intro i.
  - split; [constructor|intros j []].
  - destruct (IH (S i)) as [IHn IHr].
    cbn [Main.startServices Main.workers List.length]. rewrite map_app.
    destruct (Main.spawned (Main.startService w hosts g i serv)); simpl.
    + split.
      * constructor; [|assumption]. intro Hin. apply IHr in Hin. lia.
      * intros j [<-|Hin]; [lia|]. apply IHr in Hin. lia.
    + split; [assumption|]. intros j Hin. apply IHr in Hin. lia.
Qed.

(** Case analysis along one iteration, keeping every outcome as an
    equation. *)
Ltac iteration_cases w i s :=
  unfold Main.startService; cbn zeta;
  repeat match goal with
         | H : forMe _ _ = _ |- _ => rewrite H
         end;
  cbn [negb];
  destruct (String.eqb (Package s) "") eqn:Epkg; cbn [fst snd];
  [|destruct (Main.Install w i (Package s)) eqn:Einstall];
  (destruct (Main.Checkout w i s) eqn:Echeckout;
   [|destruct (Main.bindmount w i s) as [?|mounts] eqn:Emount;
     [|destruct (mounts >? 0) eqn:Epos;
       [destruct (Main.systemctl w i s) eqn:Ectl|]]]);
  cbn [Main.counted Main.after Main.spawned Main.events].

Ltac absent :=
  simpl; intuition (try discriminate; try congruence).

(** X18: after a successful Checkout and bind mount the worker is always
    started.  The unit restart is requested exactly when at least one
    mount was newly established; when it fails the service is marked
    BROKEN and its worker is started all the same. *)
Theorem X18_unit_restart (w : Main.World) (hosts : list string) (g : Service) (i : nat)
  (serv : Service) (n : Z) :
  forMe serv hosts = true ->
  Package (merge serv g) = ""%string \/ Main.Install w i (Package (merge serv g)) = None ->
  Main.Checkout w i (merge serv g) = None ->
  Main.bindmount w i (merge serv g) = inr n ->
  let s := merge serv g in
  let it := Main.startService w hosts g i serv in
  Main.spawned it = true
  /\ In (Main.GoTrackUpstream i (Main.after it)) (Main.events it)
  /\ (In (Main.CallSystemctl s) (Main.events it) <-> 0 < n)
  /\ (n <= 0 \/ Main.systemctl w i s = None -> Main.after it = s)
  /\ (forall err, 0 < n -> Main.systemctl w i s = Some err ->
                  state (status (Main.after it)) = StateBroken).
Proof.
  intros E Hi Hc Hb s it. unfold it, s.
  iteration_cases w i (merge serv g);
    try (apply String.eqb_neq in Epkg);
    try discriminate; try (destruct Hi; congruence);
    injection Hb as <-;
    try (apply Z.gtb_lt in Epos);
    try (rewrite Z.gtb_ltb in Epos; apply Z.ltb_ge in Epos);
    (split; [reflexivity|]);
    (split; [rewrite !in_app_iff; simpl; tauto|]);
    (split; [rewrite !in_app_iff; simpl; split; intro; try assumption; try lia;
             intuition (try discriminate; try lia)|]);
    (split; [intros [?|?]; try reflexivity; try lia; congruence|]);
    intros; try reflexivity; try lia; congruence.
Qed.

Lemma X18_unit_restart_witness :
  Main.spawned (Main.startService Samples.worldNoRestart Samples.hosts0 Samples.global0 0
                  Samples.web) = true
  /\ state (status (Main.after
        (Main.startService Samples.worldNoRestart Samples.hosts0 Samples.global0 0
           Samples.web))) = StateBroken.
Proof.
  destruct (X18_unit_restart Samples.worldNoRestart Samples.hosts0 Samples.global0 0
              Samples.web 1 eq_refl (or_introl eq_refl) eq_refl eq_refl)
    as (H1 & _ & _ & _ & H5).
  split; [exact H1|].
  apply (H5 "exit status 1"%string); reflexivity.
Defined.

(** X19: a failed step ends the iteration: after a failed package install
    git is not called; after a failed Checkout no bind mount is attempted;
    after a failed bind mount no unit is restarted; and no worker is
    started in any of these cases. *)
Theorem X19_failed_step_ends_iteration (w : Main.World) (hosts : list string)
  (g : Service) (i : nat) (serv : Service) (err : string) :
  forMe serv hosts = true ->
  let s := merge serv g in
  let ev := Main.events (Main.startService w hosts g i serv) in
  (Package s <> ""%string -> Main.Install w i (Package s) = Some err ->
   forall s', ~ In (Main.CallCheckout s') ev /\ ~ In (Main.CallBindmount s') ev)
  /\ (Main.Checkout w i s = Some err ->
      forall s', ~ In (Main.CallBindmount s') ev /\ ~ In (Main.CallSystemctl s') ev)
  /\ (Main.bindmount w i s = inl err -> forall s', ~ In (Main.CallSystemctl s') ev)
  /\ (Main.spawned (Main.startService w hosts g i serv) = false ->
      forall j s', ~ In (Main.GoTrackUpstream j s') ev).
Proof.
  intros E s ev. unfold ev, s.
  iteration_cases w i (merge serv g);
    try (apply String.eqb_eq in Epkg);
    repeat split; intros; rewrite ?in_app_iff; absent.
Qed.

Lemma X19_failed_step_ends_iteration_witness :
  ~ In (Main.CallBindmount (merge Samples.web Samples.global0))
      (Main.events (Main.startService Samples.worldNoGit Samples.hosts0
                      Samples.global0 0 Samples.web)).
Proof.
  apply (proj1 (proj2 (X19_failed_step_ends_iteration Samples.worldNoGit Samples.hosts0
                         Samples.global0 0 Samples.web "exit status 128" eq_refl))
           eq_refl (merge Samples.web Samples.global0)).
Defined.

(** X20: the only state start-up ever sets is BROKEN: the loop leaves a
    service for another host exactly as configured, and a service for this
    host merged with the global section, with its status either untouched
    or set to BROKEN; it keeps the number and the order of the services. *)
Theorem X20_loop_sets_only_broken (w : Main.World) (hosts : list string) (g : Service)
  (l : list Service) (k : nat) (s' : Service) :
  nth_error (Main.services (Main.startServices w hosts g 0 l)) k = Some s' ->
  List.length (Main.services (Main.startServices w hosts g 0 l)) = List.length l
  /\ exists serv,
      nth_error l k = Some serv
      /\ (forMe serv hosts = false -> s' = serv)
      /\ (forMe serv hosts = true ->
          s' = merge serv g
          \/ exists msg, s' = SetState (Main.Clock w k) (merge serv g) StateBroken msg).
Proof.
  intro H. split; [apply startServices_length|].
  assert (Hk : (k < List.length l)%nat).
  { rewrite <- (startServices_length w hosts g l 0). apply nth_error_Some. congruence. }
  destruct (nth_error l k) as [serv|] eqn:En; [|apply nth_error_None in En; lia].
  rewrite (startServices_nth w hosts g l 0 k serv En) in H. simpl in H.
  injection H as <-. exists serv. split; [reflexivity|]. split.
  - intro E. rewrite skipped by assumption. reflexivity.
  - intro E. iteration_cases w k (merge serv g); eauto.
Qed.

Lemma X20_loop_sets_only_broken_witness :
  exists serv,
    nth_error (Services Samples.conf1) 1 = Some serv
    /\ (forMe serv Samples.hosts0 = false -> Samples.db = serv).
Proof.
  destruct (X20_loop_sets_only_broken Samples.worldNoGit Samples.hosts0 Samples.global0
              (Services Samples.conf1) 1 Samples.db eq_refl)
    as (_ & serv & H1 & H2 & _).
  exists serv. split; assumption.
Defined.

(** X21: as soon as one configured service is for this host [run] goes on
    to wait for a signal, even when no worker could be started because
    every Checkout failed; the config tracker is started exactly when -r
    was given. *)
Theorem X21_waits_without_workers (w : Main.World) (exec : Main.ExecContext)
  (t : list Main.Event) (rdy : Main.Ready) (s : Service) :
  Main.startup w exec = (t, inr rdy) ->
  In s (Services (Main.cfg rdy)) ->
  forMe s (Main.Hosts exec) = true ->
  (forall i s', Main.Checkout w i s' <> None) ->
  Main.started (Main.run w exec) = []
  /\ Main.outcome (Main.run w exec) = Main.await w exec
  /\ Main.configTracker (Main.run w exec) = Main.Restart exec.
Proof.
  intros H Hin Hs Hfail.
  set (st := Main.startServices w (Main.Hosts exec) (Global (Main.cfg rdy)) 0
               (Services (Main.cfg rdy))).
  assert (Hcnt : Nat.eqb (Main.servCnt st) 0 = false).
  { apply Nat.eqb_neq. intro Hz. unfold st in Hz.
    pose proof (proj1 (servCnt_zero w _ _ _ 0%nat) Hz s Hin). congruence. }
  assert (Hw : Main.workers st = []).
  { destruct (Main.workers st) as [|[j s'] ws] eqn:Ew; [reflexivity|]. exfalso.
    assert (Hj : In (j, s') (Main.workers st)) by (rewrite Ew; left; reflexivity).
    unfold st in Hj. apply workers_In in Hj as (k & serv & _ & _ & Hsp & _).
    apply spawned_iff in Hsp as (_ & _ & Hc & _). apply (Hfail _ _ Hc). }
  unfold Main.run. rewrite H. fold st. rewrite Hcnt. cbn. auto.
Qed.

Lemma X21_waits_without_workers_witness :
  Main.started (Main.run Samples.worldAllBroken
                  (Main.parseFlags Samples.worldAllBroken Samples.flags0)) = []
  /\ Main.outcome (Main.run Samples.worldAllBroken
                     (Main.parseFlags Samples.worldAllBroken Samples.flags0))
     = Main.Returned None.
Proof.
  destruct (X21_waits_without_workers Samples.worldAllBroken
              (Main.parseFlags Samples.worldAllBroken Samples.flags0)
              (fst (Main.startup Samples.worldAllBroken
                      (Main.parseFlags Samples.worldAllBroken Samples.flags0)))
              (Main.mkReady Samples.conf1 "/etc/gitopper.toml" None
                 ["/etc/gitopper/ops.pub"%string])
              Samples.web eq_refl (or_introl eq_refl) eq_refl)
    as (H1 & H2 & _).
  - intros i s'. discriminate.
  - split; [exact H1|]. rewrite H2. reflexivity.
Defined.

(** * Further properties of the earlier main *)

Lemma startAll_serving (w : Legacy.World) (g : Service) (d : Z) (l : list Service) :
  forall i acc ws',
    Legacy.startAll w g d i l acc = Legacy.Serving ws' ->
    (forall k s, nth_error l k = Some s -> Legacy.bindmount w (i + k) (merge s g) = None)
    /\ exists ws, ws' = acc ++ ws
                  /\ map Legacy.tracked ws = map (fun s => merge s g) l
                  /\ forall wk, In wk ws -> Legacy.period wk = d.
Proof.
  induction l as [|s l IH]; intros i acc ws' H.
  - inversion H; subst. split; [intros [|k] s' Hk; discriminate|].
    exists []. rewrite app_nil_r. repeat split. intros wk [].
  - cbn [Legacy.startAll] in H.
    destruct (Legacy.bindmount w i (merge s g)) eqn:Eb; [discriminate|].
    apply IH in H as (Hall & ws & -> & Hmap & Hper). split.
    + intros [|k] s' Hk.
      * inversion Hk; subst. rewrite Nat.add_0_r. assumption.
      * rewrite Nat.add_succ_r. apply (Hall k s' Hk).
    + eexists (_ :: ws). rewrite <- app_assoc. split; [reflexivity|]. split.
      * simpl. rewrite Hmap. reflexivity.
      * intros wk [<-|Hin]; [reflexivity|apply Hper; assumption].
Qed.

Lemma startAll_fatal_at (w : Legacy.World) (g : Service) (d : Z) (l : list Service) :
  forall i acc k s err,
    nth_error l k = Some s ->
    Legacy.bindmount w (i + k) (merge s g) = Some err ->
    (forall j s', (j < k)%nat -> nth_error l j = Some s' ->
                  Legacy.bindmount w (i + j) (merge s' g) = None) ->
    exists ws,
      Legacy.startAll w g d i l acc
      = Legacy.Fatal ("Can not setup bind mounts: " ++ err)%string (acc ++ ws)
      /\ map Legacy.tracked ws = map (fun s => merge s g) (firstn k l).
Proof.
  induction l as [|x l IH]; intros i acc k s err Hk Hb Hbefore.
  - destruct k; discriminate.
  - cbn [Legacy.startAll]. destruct k as [|k].
    + inversion Hk; subst. rewrite Nat.add_0_r in Hb. rewrite Hb.
      exists []. rewrite app_nil_r. split; reflexivity.
    + pose proof (Hbefore 0%nat x (Nat.lt_0_succ k) eq_refl) as H0.
      rewrite Nat.add_0_r in H0. rewrite H0.
      destruct (IH (S i) (acc ++ [Legacy.mkWorker (merge x g) d
                                    match Legacy.Checkout w i (merge x g) with
                                    | Some _ => true
                                    | None => false
                                    end]) k s err Hk) as (ws & -> & Hmap).
      * rewrite Nat.add_succ_l, <- Nat.add_succ_r. assumption.
      * intros j s' Hj Hn. rewrite Nat.add_succ_l, <- Nat.add_succ_r.
        apply (Hbefore (S j) s'); [lia|assumption].
      * eexists (_ :: ws). rewrite <- app_assoc. split; [reflexivity|].
        simpl. rewrite Hmap. reflexivity.
Qed.

(** X22: when the earlier main gets to serve, -c was given, -d parsed to
    at least 5 seconds, the config was read, decoded and valid, every bind
    mount succeeded, and one worker was started for every configured
    service, in order and whatever its machine: there is no host filter,
    and a failed Checkout does not stop a worker. *)
Theorem X22_legacy_serving (w : Legacy.World) (f : Legacy.Flags) (ws : list Legacy.Worker) :
  Legacy.main w f = Legacy.Serving ws ->
  Legacy.flagConfig f <> ""%string
  /\ exists d doc c,
      Legacy.ParseDuration w (Legacy.flagDuration f) = inr d
      /\ 5 * Time.Second <= d
      /\ Legacy.ReadFile w (Legacy.flagConfig f) = inr doc
      /\ Legacy.Unmarshal w doc = inr c
      /\ Legacy.Valid w c = None
      /\ (forall k s, nth_error (Services c) k = Some s ->
                      Legacy.bindmount w k (merge s (Global c)) = None)
      /\ map Legacy.tracked ws = map (fun s => merge s (Global c)) (Services c)
      /\ forall wk, In wk ws -> Legacy.period wk = d.
Proof.
  unfold Legacy.main. intro H.
  destruct (String.eqb (Legacy.flagConfig f) "") eqn:Ec; [discriminate|].
  apply String.eqb_neq in Ec. split; [assumption|].
  destruct (Legacy.ParseDuration w (Legacy.flagDuration f)) as [e|d]; [discriminate|].
  destruct (d <? 5 * Time.Second) eqn:Ed; [discriminate|]. apply Z.ltb_ge in Ed.
  destruct (Legacy.ReadFile w (Legacy.flagConfig f)) as [e|doc]; [discriminate|].
  destruct (Legacy.Unmarshal w doc) as [e|c] eqn:Eu; [discriminate|].
  destruct (Legacy.Valid w c) eqn:Ev; [discriminate|].
  apply startAll_serving in H as (Hall & ws0 & -> & Hmap & Hper).
  exists d, doc, c. repeat split; assumption.
Qed.

Lemma X22_legacy_serving_witness :
  exists d,
    Legacy.ParseDuration (Samples.legacyWorld (fun _ _ => None)) "30s" = inr d
    /\ 5 * Time.Second <= d.
Proof.
  destruct (X22_legacy_serving (Samples.legacyWorld (fun _ _ => None))
              (Samples.legacyFlags "30s")
              [Legacy.mkWorker (merge Samples.web Samples.global0) (30 * Time.Second) false;
               Legacy.mkWorker (merge Samples.db Samples.global0) (30 * Time.Second) false]
              eq_refl) as (_ & d & doc & c & H1 & H2 & _).
  exists d. split; assumption.
Defined.

(** X23: in the earlier main the first bind mount that fails ends the
    process with the message Can not setup bind mounts; the workers of the
    services before it have been started by then, those of the services
    after it never are. *)
Theorem X23_legacy_bindmount_fatal (w : Legacy.World) (g : Service) (d : Z)
  (l : list Service) (k : nat) (s : Service) (err : string) :
  nth_error l k = Some s ->
  Legacy.bindmount w k (merge s g) = Some err ->
  (forall j s', (j < k)%nat -> nth_error l j = Some s' ->
                Legacy.bindmount w j (merge s' g) = None) ->
  exists ws,
    Legacy.startAll w g d 0 l []
    = Legacy.Fatal ("Can not setup bind mounts: " ++ err)%string ws
    /\ map Legacy.tracked ws = map (fun s => merge s g) (firstn k l).
Proof.
  intros Hk Hb Hbefore.
  apply (startAll_fatal_at w g d l 0 [] k s err Hk Hb Hbefore).
Qed.

Lemma X23_legacy_bindmount_fatal_witness :
  exists ws,
    Legacy.startAll
      (Samples.legacyWorld (fun i _ => if Nat.eqb i 1 then Some "permission denied"%string
                                       else None))
      Samples.global0 (30 * Time.Second) 0 [Samples.web; Samples.db] []
    = Legacy.Fatal "Can not setup bind mounts: permission denied" ws
    /\ map Legacy.tracked ws = [merge Samples.web Samples.global0].
Proof.
  apply (X23_legacy_bindmount_fatal
           (Samples.legacyWorld (fun i _ => if Nat.eqb i 1 then Some "permission denied"%string
                                            else None))
           Samples.global0 (30 * Time.Second) [Samples.web; Samples.db] 1 Samples.db
           "permission denied" eq_refl eq_refl).
  intros [|j] s' Hj Hn; [reflexivity|lia].
Defined.

(** X24: the earlier main checks its flags and its config in a fixed
    order, each failure being fatal before any worker is started: a
    missing -c, then an unparsable -d, then a -d under 5 seconds, then an
    unreadable, undecodable or invalid config. *)
Theorem X24_legacy_fatal_order (w : Legacy.World) (f : Legacy.Flags) :
  (Legacy.flagConfig f = ""%string ->
   Legacy.main w f = Legacy.Fatal "-c flag is mandatory" [])
  /\ (Legacy.flagConfig f <> ""%string ->
      (forall err, Legacy.ParseDuration w (Legacy.flagDuration f) = inl err ->
                   Legacy.main w f = Legacy.Fatal ("invalid -d value: " ++ err)%string [])
      /\ (forall d, Legacy.ParseDuration w (Legacy.flagDuration f) = inr d ->
                    5 * Time.Second <= d ->
                    (forall err, Legacy.ReadFile w (Legacy.flagConfig f) = inl err ->
                                 Legacy.main w f = Legacy.Fatal err [])
                    /\ (forall doc err,
                           Legacy.ReadFile w (Legacy.flagConfig f) = inr doc ->
                           Legacy.Unmarshal w doc = inl err ->
                           Legacy.main w f = Legacy.Fatal err [])
                    /\ (forall doc c err,
                           Legacy.ReadFile w (Legacy.flagConfig f) = inr doc ->
                           Legacy.Unmarshal w doc = inr c ->
                           Legacy.Valid w c = Some err ->
                           Legacy.main w f
                           = Legacy.Fatal ("The configuration is not valid: " ++ err)%string
                               []))).
Proof.
  unfold Legacy.main. split.
  - intros ->. reflexivity.
  - intro Hc. apply String.eqb_neq in Hc. rewrite Hc. split.
    + intros err ->. reflexivity.
    + intros d -> Hd. apply Z.ltb_ge in Hd. rewrite Hd. repeat split.
      * intros err ->. reflexivity.
      * intros doc err -> ->. reflexivity.
      * intros doc c err -> -> ->. reflexivity.
Qed.

Lemma X24_legacy_fatal_order_witness :
  Legacy.main (Samples.legacyWorld (fun _ _ => None)) Legacy.defaultFlags
  = Legacy.Fatal "-c flag is mandatory" []
  /\ Legacy.main (Samples.legacyWorld (fun _ _ => None)) (Samples.legacyFlags "soon")
     = Legacy.Fatal "invalid -d value: time: invalid duration soon" [].
Proof.
  split.
  - apply (proj1 (X24_legacy_fatal_order (Samples.legacyWorld (fun _ _ => None))
                    Legacy.defaultFlags)).
    reflexivity.
  - apply (proj1 (proj2 (X24_legacy_fatal_order (Samples.legacyWorld (fun _ _ => None))
                           (Samples.legacyFlags "soon")) ltac:(discriminate))
             "time: invalid duration soon"%string).
    reflexivity.
Defined.
